(** * LunaRTOS kernel: a shallow embedding of [drivers/Src/kernel.c]

    The kernel keeps all of its data in file-scope globals: the table of
    thread control blocks [tcb], the pointer [currStackPtr] to the running
    thread's block, the per-thread stacks [TCB_STACK] and the millisecond
    prescaler.  It also programs the SysTick timer and one interrupt
    priority.  The embedding threads one record holding these through a small
    state-and-undefined-behaviour monad; every C statement of the source is one
    monadic action. *)

From Stdlib Require Import ZArith Lia.
From stdpp Require Import base option list gmap.

Local Open Scope Z_scope.

(** ** Compile-time configuration ([kernel.c], lines 3-8) *)

Definition SYS_CLOCK : Z := 16000000.
Definition NUM_THREADS : nat := 3.
Definition MAX_STACK_SIZE : nat := 100.

(** ** Machine integers *)

(** Conversion to [uint32_t]: reduction modulo 2^32. *)
Definition to_uint32 (z : Z) : Z := z mod 2 ^ 32.

(** Conversion to [int32_t] as the ARM compilers do it: the value is wrapped
    into the range -2^31 .. 2^31 - 1. *)
Definition to_int32 (z : Z) : Z := (z + 2 ^ 31) mod 2 ^ 32 - 2 ^ 31.

(** Conversion to [uint8_t]: reduction modulo 2^8. *)
Definition to_uint8 (n : nat) : nat := (n mod 256)%nat.

(** ** Pointers *)

(** An [int32_t *] into [TCB_STACK]: null, or [&TCB_STACK[i][k]]. *)
Inductive stack_ptr : Type :=
| SNull
| SlotAddr (i k : nat).

(** A [tcb_t *]: null, or [&tcb[i]]. *)
Inductive tcb_ptr : Type :=
| TNull
| TcbAddr (i : nat).

(** A [void ( * )(void)]: the 32-bit address of the task's code, [0] for a
    null pointer. *)
Definition task_ptr : Type := Z.
Definition NULL : task_ptr := 0.

#[global] Instance stack_ptr_eq_dec : EqDecision stack_ptr.
Proof. solve_decision. Defined.
#[global] Instance tcb_ptr_eq_dec : EqDecision tcb_ptr.
Proof. solve_decision. Defined.

(** ** Data ([kernel.c], lines 11-25) *)

Record tcb_t : Type := Tcb {
  stackPtr : stack_ptr;
  nextStackPtr : tcb_ptr
}.

(** Modelled from the spec: the timer's register block, declared in the
    device header, which is not among the files at hand.  Section 6 names it a
    periodic hardware timer with a reload configuration; these are the three
    32-bit registers [KernelLaunch] writes. *)
Record SysTick_Type : Type := SysTickRegs {
  CTRL : Z;
  LOAD : Z;
  VAL : Z
}.

(** Modelled from the spec: the exception numbers of the device header.
    Section 4.4 speaks of the tick handler and of the switch exception; these
    are SysTick and PendSV, next to the device interrupts by number. *)
Inductive IRQn_Type : Type :=
| PendSV_IRQn
| SysTick_IRQn
| Device_IRQn (n : nat).

#[global] Instance IRQn_eq_dec : EqDecision IRQn_Type.
Proof. solve_decision. Defined.

#[global] Instance IRQn_countable : Countable IRQn_Type.
Proof.
  refine (inj_countable'
    (fun q => match q with
              | PendSV_IRQn => inl false
              | SysTick_IRQn => inl true
              | Device_IRQn n => inr n
              end)
    (fun c => match c with
              | inl false => PendSV_IRQn
              | inl true => SysTick_IRQn
              | inr n => Device_IRQn n
              end) _).
  intros []; reflexivity.
Defined.

(** All the state the kernel reads or writes.

    Modelled from the spec: [MS_PRESCALER] is assigned by [KernelInit] and
    read by [KernelLaunch], but no file at hand declares it.  Section 6 has
    [KernelInit] derive and store the millisecond-tick timing base from the
    clock rate; it is an [uint32_t] global here.  [NVIC_priority] and
    [PRIMASK] stand for the processor's priority registers and interrupt
    mask. *)
Record kernel : Type := Kernel {
  MS_PRESCALER : Z;
  tcb : list tcb_t;
  currStackPtr : tcb_ptr;
  TCB_STACK : list (list Z);
  SysTick : SysTick_Type;
  NVIC_priority : gmap IRQn_Type Z;
  PRIMASK : bool
}.

(** Field updates. *)
Definition set_MS_PRESCALER (v : Z) (s : kernel) : kernel :=
  Kernel v (tcb s) (currStackPtr s) (TCB_STACK s) (SysTick s)
         (NVIC_priority s) (PRIMASK s).
Definition set_tcb (v : list tcb_t) (s : kernel) : kernel :=
  Kernel (MS_PRESCALER s) v (currStackPtr s) (TCB_STACK s) (SysTick s)
         (NVIC_priority s) (PRIMASK s).
Definition set_currStackPtr (v : tcb_ptr) (s : kernel) : kernel :=
  Kernel (MS_PRESCALER s) (tcb s) v (TCB_STACK s) (SysTick s)
         (NVIC_priority s) (PRIMASK s).
Definition set_TCB_STACK (v : list (list Z)) (s : kernel) : kernel :=
  Kernel (MS_PRESCALER s) (tcb s) (currStackPtr s) v (SysTick s)
         (NVIC_priority s) (PRIMASK s).
Definition set_SysTick (v : SysTick_Type) (s : kernel) : kernel :=
  Kernel (MS_PRESCALER s) (tcb s) (currStackPtr s) (TCB_STACK s) v
         (NVIC_priority s) (PRIMASK s).
Definition set_NVIC_priority (v : gmap IRQn_Type Z) (s : kernel) : kernel :=
  Kernel (MS_PRESCALER s) (tcb s) (currStackPtr s) (TCB_STACK s) (SysTick s)
         v (PRIMASK s).
Definition set_PRIMASK (v : bool) (s : kernel) : kernel :=
  Kernel (MS_PRESCALER s) (tcb s) (currStackPtr s) (TCB_STACK s) (SysTick s)
         (NVIC_priority s) v.

(** The globals as the C start-up code leaves them (all zero), the SysTick
    registers cleared, every priority at its reset value and interrupts
    enabled. *)
Definition reset_kernel : kernel :=
  Kernel 0
         (replicate NUM_THREADS (Tcb SNull TNull))
         TNull
         (replicate NUM_THREADS (replicate MAX_STACK_SIZE 0))
         (SysTickRegs 0 0 0)
         ∅
         false.

(** ** The monad: state, with undefined behaviour *)

(** A C function either returns to its caller, with a value and the new
    state, or performs an access the C standard leaves undefined. *)
Inductive outcome (A : Type) : Type :=
| Returns (a : A) (s : kernel)
| Undefined.
Arguments Returns {A} a s.
Arguments Undefined {A}.

Definition M (A : Type) : Type := kernel -> outcome A.

Definition ret {A} (a : A) : M A := fun s => Returns a s.

Definition bind {A B} (m : M A) (f : A -> M B) : M B :=
  fun s => match m s with
           | Returns a s' => f a s'
           | Undefined => Undefined
           end.

Declare Scope kernel_scope.
Delimit Scope kernel_scope with kernel.
Notation "x <- m ;; k" := (bind m (fun x => k))
  (at level 100, m at next level, right associativity) : kernel_scope.
Notation "m ;; k" := (bind m (fun _ => k))
  (at level 100, right associativity) : kernel_scope.
Local Open Scope kernel_scope.

Definition get {A} (f : kernel -> A) : M A := fun s => Returns (f s) s.
Definition modify (f : kernel -> kernel) : M unit := fun s => Returns tt (f s).
Definition undefined {A} : M A := fun _ => Undefined.

(** ** Memory accesses *)

(** [TCB_STACK[i][k]], when both indices are inside the array. *)
Definition stack_at (s : kernel) (i k : nat) : option Z :=
  row ← TCB_STACK s !! i; row !! k.

(** The state after [TCB_STACK[i][k] = v]. *)
Definition poke (i k : nat) (v : Z) (s : kernel) : kernel :=
  set_TCB_STACK (alter (<[k := v]>) i (TCB_STACK s)) s.

(** [TCB_STACK[i][k] = v;] *)
Definition store_stack (i k : nat) (v : Z) : M unit :=
  fun s => match stack_at s i k with
           | Some _ => Returns tt (poke i k v s)
           | None => Undefined
           end.

(** [tcb[i].stackPtr = p;] *)
Definition store_stackPtr (i : nat) (p : stack_ptr) : M unit :=
  fun s => match tcb s !! i with
           | Some _ =>
               Returns tt (set_tcb (alter (fun t => Tcb p (nextStackPtr t)) i (tcb s)) s)
           | None => Undefined
           end.

(** [tcb[i].nextStackPtr = p;] *)
Definition store_nextStackPtr (i : nat) (p : tcb_ptr) : M unit :=
  fun s => match tcb s !! i with
           | Some _ =>
               Returns tt (set_tcb (alter (fun t => Tcb (stackPtr t) p) i (tcb s)) s)
           | None => Undefined
           end.

(** Modelled from the spec: the compiler intrinsics [__disable_irq()] and
    [__enable_irq()].  Section 4.2 has creation run with interrupts disabled
    for its duration; they set and clear the interrupt mask. *)
Definition __disable_irq : M unit := modify (set_PRIMASK true).
Definition __enable_irq : M unit := modify (set_PRIMASK false).

(** Modelled from the spec: [NVIC_SetPriority(irq, p)], the
    interrupt-priority-levels service of section 6; it records the level of
    [irq]. *)
Definition NVIC_SetPriority (irq : IRQn_Type) (p : Z) : M unit :=
  modify (fun s => set_NVIC_priority (<[irq := p]> (NVIC_priority s)) s).

(** The priority level an exception has: the one written last, or [0], the
    level every exception has out of reset. *)
Definition priority_of (s : kernel) (irq : IRQn_Type) : Z :=
  default 0 (NVIC_priority s !! irq).

(** ** [KernelInit] ([kernel.c], lines 28-30) *)

Definition KernelInit : M unit :=
  modify (set_MS_PRESCALER (to_uint32 (SYS_CLOCK / 1000))).

(** ** [KernelLaunch] ([kernel.c], lines 32-57)

    The source reads [QUANTA], a macro that only [main.c] defines, and [main]
    passes it to the function, which the header declares with the parameter
    [quanta]; it is that parameter here. *)

Definition write_CTRL (f : Z -> Z) : M unit :=
  modify (fun s => set_SysTick
            (SysTickRegs (to_uint32 (f (CTRL (SysTick s))))
                         (LOAD (SysTick s)) (VAL (SysTick s))) s).
Definition write_VAL (v : Z) : M unit :=
  modify (fun s => set_SysTick
            (SysTickRegs (CTRL (SysTick s)) (LOAD (SysTick s)) (to_uint32 v)) s).
Definition write_LOAD (v : Z) : M unit :=
  modify (fun s => set_SysTick
            (SysTickRegs (CTRL (SysTick s)) (to_uint32 v) (VAL (SysTick s))) s).

Definition KernelLaunch (quanta : Z) : M unit :=
  write_CTRL (fun _ => 0) ;;
  write_VAL 0 ;;
  ms <- get MS_PRESCALER ;;
  write_LOAD (quanta * ms - 1) ;;
  NVIC_SetPriority SysTick_IRQn 15 ;;
  write_CTRL (fun c => Z.lor c (Z.shiftl 1 2)) ;;
  write_CTRL (fun c => Z.lor c (Z.shiftl 1 0)) ;;
  write_CTRL (fun c => Z.lor c (Z.shiftl 1 1)) ;;
  (* TODO in the source: launch the scheduler *)
  ret tt.

(** ** [KernelStackInit] ([kernel.c], lines 92-130)

    The parameter is an [uint8_t]: the argument of a call is converted to that
    type, and the converted value [i] is what the body uses as array
    subscript.  [KernelCreateThreads] passes 0, 1 and 2. *)

Definition KernelStackInit (n : nat) : M unit :=
  let i := to_uint8 n in
  store_stackPtr i (SlotAddr i (MAX_STACK_SIZE - 16)) ;;
  store_stack i (MAX_STACK_SIZE - 1) (to_int32 (Z.shiftl 1 24)) ;;
  store_stack i (MAX_STACK_SIZE - 3) (to_int32 0xAAAAAAAA) ;;
  store_stack i (MAX_STACK_SIZE - 4) (to_int32 0xAAAAAAAA) ;;
  store_stack i (MAX_STACK_SIZE - 5) (to_int32 0xAAAAAAAA) ;;
  store_stack i (MAX_STACK_SIZE - 6) (to_int32 0xAAAAAAAA) ;;
  store_stack i (MAX_STACK_SIZE - 7) (to_int32 0xAAAAAAAA) ;;
  store_stack i (MAX_STACK_SIZE - 8) (to_int32 0xAAAAAAAA) ;;
  store_stack i (MAX_STACK_SIZE - 9) (to_int32 0xAAAAAAAA) ;;
  store_stack i (MAX_STACK_SIZE - 10) (to_int32 0xAAAAAAAA) ;;
  store_stack i (MAX_STACK_SIZE - 11) (to_int32 0xAAAAAAAA) ;;
  store_stack i (MAX_STACK_SIZE - 12) (to_int32 0xAAAAAAAA) ;;
  store_stack i (MAX_STACK_SIZE - 13) (to_int32 0xAAAAAAAA) ;;
  store_stack i (MAX_STACK_SIZE - 14) (to_int32 0xAAAAAAAA) ;;
  store_stack i (MAX_STACK_SIZE - 15) (to_int32 0xAAAAAAAA) ;;
  store_stack i (MAX_STACK_SIZE - 16) (to_int32 0xAAAAAAAA).

(** ** [KernelCreateThreads] ([kernel.c], lines 59-90)

    The result is the [uint8_t] status. *)

Definition KernelCreateThreads (task0 task1 task2 : task_ptr) : M Z :=
  __disable_irq ;;
  store_nextStackPtr 0 (TcbAddr 1) ;;
  store_nextStackPtr 1 (TcbAddr 2) ;;
  store_nextStackPtr 2 (TcbAddr 0) ;;
  KernelStackInit 0 ;;
  store_stack 0 (MAX_STACK_SIZE - 2) (to_int32 task0) ;;
  KernelStackInit 1 ;;
  store_stack 1 (MAX_STACK_SIZE - 2) (to_int32 task1) ;;
  KernelStackInit 2 ;;
  store_stack 2 (MAX_STACK_SIZE - 2) (to_int32 task2) ;;
  modify (set_currStackPtr (TcbAddr 0)) ;;
  __enable_irq ;;
  ret 1.

(** ** [main] ([main.c]): the kernel calls, in order

    The call of [uart_tx_init], a driver outside the kernel, is left out; the
    addresses of the three tasks are parameters. *)

Definition QUANTA : Z := 10.

Definition main (task0 task1 task2 : task_ptr) : M unit :=
  KernelInit ;;
  KernelCreateThreads task0 task1 task2 ;;
  KernelLaunch QUANTA.

(** ** The initial frame, as [KernelStackInit] labels it *)

(** The general-purpose registers that have a slot in a saved frame. *)
Inductive reg : Type :=
| R0 | R1 | R2 | R3 | R4 | R5 | R6 | R7 | R8 | R9 | R10 | R11 | R12 | LR.

(** R0-R3, R12 and LR are restored by the processor on exception return,
    R4-R11 by software. *)
Definition hardware_restored (r : reg) : bool :=
  match r with
  | R0 | R1 | R2 | R3 | R12 | LR => true
  | _ => false
  end.

(** The index in the thread's stack of the slot the source labels with the
    register's name. *)
Definition frame_slot (r : reg) : nat :=
  match r with
  | LR => MAX_STACK_SIZE - 3
  | R12 => MAX_STACK_SIZE - 4
  | R3 => MAX_STACK_SIZE - 5
  | R2 => MAX_STACK_SIZE - 6
  | R1 => MAX_STACK_SIZE - 7
  | R0 => MAX_STACK_SIZE - 8
  | R11 => MAX_STACK_SIZE - 9
  | R10 => MAX_STACK_SIZE - 10
  | R9 => MAX_STACK_SIZE - 11
  | R8 => MAX_STACK_SIZE - 12
  | R7 => MAX_STACK_SIZE - 13
  | R6 => MAX_STACK_SIZE - 14
  | R5 => MAX_STACK_SIZE - 15
  | R4 => MAX_STACK_SIZE - 16
  end.

(** The slots of the program counter and of the program status register. *)
Definition PC_slot : nat := MAX_STACK_SIZE - 2.
Definition xPSR_slot : nat := MAX_STACK_SIZE - 1.

(** The bit of the status register that selects Thumb state. *)
Definition THUMB_BIT : Z := 24.

(** What [0xAAAAAAAA] is once stored in an [int32_t]. *)
Definition SENTINEL : Z := to_int32 0xAAAAAAAA.

(** ** Shape of the arrays, as declared *)

Definition wf_kernel (s : kernel) : Prop :=
  length (tcb s) = NUM_THREADS ∧
  length (TCB_STACK s) = NUM_THREADS ∧
  Forall (fun row => length row = MAX_STACK_SIZE) (TCB_STACK s).

(** ** Interrupt priorities *)

(** On the Cortex-M a numerically smaller level is the more urgent one. *)
Definition higher_priority (a b : Z) : Prop := a < b.

(** The level [KernelLaunch] calls the lowest priority. *)
Definition LOWEST_PRIORITY : Z := 15.

(** ** The successor relation of the TCB table *)

(** [p->nextStackPtr], null when [p] is not the address of a block. *)
Definition hop (t : list tcb_t) (p : tcb_ptr) : tcb_ptr :=
  match p with
  | TNull => TNull
  | TcbAddr i => match t !! i with
                 | Some b => nextStackPtr b
                 | None => TNull
                 end
  end.

(** The first [n] blocks met from [p] on, [p] included. *)
Definition visit (t : list tcb_t) (n : nat) (p : tcb_ptr) : list tcb_ptr :=
  (fun k => Nat.iter k (hop t) p) <$> seq 0 n.

(** The addresses of all the blocks of a table. *)
Definition blocks (t : list tcb_t) : list tcb_ptr :=
  TcbAddr <$> seq 0 (length t).

(** The links form one cycle through every block: from any block, as many
    hops as there are blocks meet each block once and lead back. *)
Definition single_cycle (t : list tcb_t) : Prop :=
  ∀ i, (i < length t)%nat →
    visit t (length t) (TcbAddr i) ≡ₚ blocks t ∧
    Nat.iter (length t) (hop t) (TcbAddr i) = TcbAddr i.

(** Each block is linked to the next one of the table, the last to the
    first. *)
Definition ring_links (t : list tcb_t) : Prop :=
  ∀ i b, t !! i = Some b → nextStackPtr b = TcbAddr (S i mod length t).

(** ** The context switch *)

(** What asks for a switch. *)
Inductive trigger : Type :=
| TimerTick
| ThreadYield.

(** A request for a switch: its cause, and the stack pointer of the running
    thread once its registers are pushed. *)
Definition switch_request : Type := trigger * stack_ptr.

(** [tcb[i]], for [i] inside the table. *)
Definition load_tcb (i : nat) : M tcb_t :=
  fun s => match tcb s !! i with
           | Some t => Returns t s
           | None => Undefined
           end.

(** Modelled from the spec: the switch routine, which [kernel.c] does not
    contain (its [KernelLaunch] stops at a TODO).  Section 4.5, steps 2 to 4:
    the stack pointer of the thread that was running is stored in its block,
    [currStackPtr] moves to the block's successor, and the stack pointer saved
    in the new block is loaded. *)
Definition ContextSwitch (sp : stack_ptr) : M stack_ptr :=
  cur <- get currStackPtr ;;
  match cur with
  | TNull => undefined
  | TcbAddr i =>
      store_stackPtr i sp ;;
      t <- load_tcb i ;;
      modify (set_currStackPtr (nextStackPtr t)) ;;
      match nextStackPtr t with
      | TNull => undefined
      | TcbAddr j => t' <- load_tcb j ;; ret (stackPtr t')
      end
  end.

(** Modelled from the spec: the timer handler and [ThreadYield], of which the
    repository has the declaration only.  Sections 4.4 and 4.6: each pends the
    switch exception, and the same routine serves both. *)
Definition serve (r : switch_request) : M stack_ptr :=
  match fst r with
  | TimerTick => ContextSwitch (snd r)
  | ThreadYield => ContextSwitch (snd r)
  end.

(** The cyclic sequence 0, 1, ..., n-1, 0, 1, ... of blocks, [m] long. *)
Definition cyclic_order (n m : nat) : list tcb_ptr :=
  (fun k => TcbAddr (k mod n)) <$> seq 0 m.

(** ** Kernel operations, for reachability

    The three entry points of [kernel.c], with any arguments, and the switch
    step modelled above. *)

Inductive kernel_op : Type :=
| CallKernelInit
| CallKernelCreateThreads (task0 task1 task2 : task_ptr)
| CallKernelLaunch (quanta : Z)
| Switch (r : switch_request).

Definition exec_op (o : kernel_op) : M unit :=
  match o with
  | CallKernelInit => KernelInit
  | CallKernelCreateThreads t0 t1 t2 => KernelCreateThreads t0 t1 t2 ;; ret tt
  | CallKernelLaunch q => KernelLaunch q
  | Switch r => serve r ;; ret tt
  end.

Fixpoint exec_ops (os : list kernel_op) : M unit :=
  match os with
  | [] => ret tt
  | o :: os' => exec_op o ;; exec_ops os'
  end.

(** The functions [kernel.c] defines for its callers: all the kernel code
    there is to call. *)
Inductive entry_point : Type :=
| EnterKernelInit
| EnterKernelCreateThreads (task0 task1 task2 : task_ptr)
| EnterKernelLaunch (quanta : Z).

Definition call_of (e : entry_point) : kernel_op :=
  match e with
  | EnterKernelInit => CallKernelInit
  | EnterKernelCreateThreads t0 t1 t2 => CallKernelCreateThreads t0 t1 t2
  | EnterKernelLaunch q => CallKernelLaunch q
  end.

(** The successor links of a table, in order. *)
Definition links (t : list tcb_t) : list tcb_ptr := nextStackPtr <$> t.

(** The entry point [KernelCreateThreads] gives thread [i]. *)
Definition entry_of (task0 task1 task2 : task_ptr) (i : nat) : task_ptr :=
  match i with
  | O => task0
  | S O => task1
  | _ => task2
  end.

(** The table [KernelCreateThreads] builds. *)
Definition created_tcb : list tcb_t :=
  [ Tcb (SlotAddr 0 (MAX_STACK_SIZE - 16)) (TcbAddr 1);
    Tcb (SlotAddr 1 (MAX_STACK_SIZE - 16)) (TcbAddr 2);
    Tcb (SlotAddr 2 (MAX_STACK_SIZE - 16)) (TcbAddr 0) ].

(** The part of the state that is not thread data. *)
Definition peripherals (s : kernel) : Z * SysTick_Type * gmap IRQn_Type Z :=
  (MS_PRESCALER s, SysTick s, NVIC_priority s).

(** What the scheduler reads: the table, the current pointer and the
    stacks. *)
Definition scheduler_view (s : kernel) : list tcb_t * tcb_ptr * list (list Z) :=
  (tcb s, currStackPtr s, TCB_STACK s).

(** The ring invariant: [n] blocks linked in a ring, [currStackPtr] at block
    [c]. *)
Definition at_block (n c : nat) (s : kernel) : Prop :=
  length (tcb s) = n ∧ ring_links (tcb s) ∧
  (c < n)%nat ∧ currStackPtr s = TcbAddr c.

(** The states the kernel can be in once threads are created: the arrays
    have their shape, the links are those creation set, and [currStackPtr] is
    at one of the blocks. *)
Definition after_creation (s : kernel) : Prop :=
  wf_kernel s ∧ links (tcb s) = links created_tcb ∧
  ∃ c, at_block NUM_THREADS c s.

(** The sixteen words of a thread's initial frame, from the saved stack
    pointer up: R4-R11, then R0-R3, R12 and LR, then the program counter and
    the status register. *)
Definition initial_frame (task : task_ptr) : list Z :=
  replicate 8 SENTINEL ++ replicate 6 SENTINEL ++
  [to_int32 task; to_int32 (Z.shiftl 1 24)].

(** * Properties *)

(** ** The monad and the memory *)

Lemma bind_returns {A B} (m : M A) (f : A → M B) s a s' :
  m s = Returns a s' → bind m f s = f a s'.
Proof. unfold bind. intros ->. reflexivity. Qed.

Lemma bind_inv {A B} (m : M A) (f : A → M B) s b s'' :
  bind m f s = Returns b s'' →
  ∃ a s', m s = Returns a s' ∧ f a s' = Returns b s''.
Proof. unfold bind. destruct (m s) as [a s'|]; [eauto | discriminate]. Qed.

Section Memory.
Implicit Types (s : kernel) (i k : nat) (v : Z).

Lemma stack_at_is_Some s i k :
  wf_kernel s → (i < NUM_THREADS)%nat → (k < MAX_STACK_SIZE)%nat →
  is_Some (stack_at s i k).
Proof.
  intros (_ & Hlen & Hrows) Hi Hk. unfold stack_at.
  destruct (lookup_lt_is_Some_2 (TCB_STACK s) i) as [row Hrow]; [lia|].
  rewrite Hrow. simpl. apply lookup_lt_is_Some_2.
  rewrite Forall_lookup in Hrows. rewrite (Hrows _ _ Hrow). exact Hk.
Qed.

Lemma stack_at_poke_eq i k v s :
  stack_at (poke i k v s) i k = (fun _ => v) <$> stack_at s i k.
Proof.
  unfold stack_at, poke. simpl. rewrite list_lookup_alter_eq.
  destruct (TCB_STACK s !! i) as [row|]; simpl; [|reflexivity].
  destruct (decide (k < length row)%nat) as [Hk|Hk].
  - rewrite list_lookup_insert_eq by exact Hk.
    destruct (lookup_lt_is_Some_2 row k Hk) as [x ->]. reflexivity.
  - rewrite list_insert_ge by lia. rewrite lookup_ge_None_2 by lia. reflexivity.
Qed.

Lemma stack_at_poke_ne i k v s i' k' :
  i ≠ i' ∨ k ≠ k' → stack_at (poke i k v s) i' k' = stack_at s i' k'.
Proof.
  intros Hne. unfold stack_at, poke. simpl.
  destruct (decide (i = i')) as [<-|Hi].
  - rewrite list_lookup_alter_eq.
    destruct (TCB_STACK s !! i) as [row|]; simpl; [|reflexivity].
    apply list_lookup_insert_ne. destruct Hne; congruence.
  - rewrite list_lookup_alter_ne by exact Hi. reflexivity.
Qed.

Lemma wf_poke i k v s : wf_kernel s → wf_kernel (poke i k v s).
Proof.
  intros (Ht & Hlen & Hrows). unfold wf_kernel, poke. simpl.
  rewrite length_alter. repeat split; [exact Ht | exact Hlen |].
  rewrite Forall_lookup in Hrows. apply Forall_lookup. intros j row.
  destruct (decide (i = j)) as [<-|Hj].
  - rewrite list_lookup_alter_eq. intros Hrow.
    destruct (TCB_STACK s !! i) as [row0|] eqn:E; simpl in Hrow; [|discriminate].
    injection Hrow as <-. rewrite length_insert. exact (Hrows _ _ E).
  - rewrite list_lookup_alter_ne by exact Hj. apply Hrows.
Qed.

Lemma wf_alter_tcb f i s :
  wf_kernel s → wf_kernel (set_tcb (alter f i (tcb s)) s).
Proof.
  intros (Ht & Hlen & Hrows). unfold wf_kernel. simpl.
  rewrite length_alter. auto.
Qed.

Lemma store_stack_returns i k v s :
  wf_kernel s → (i < NUM_THREADS)%nat → (k < MAX_STACK_SIZE)%nat →
  store_stack i k v s = Returns tt (poke i k v s).
Proof.
  intros Hwf Hi Hk. unfold store_stack.
  destruct (stack_at_is_Some s i k Hwf Hi Hk) as [x ->]. reflexivity.
Qed.

Lemma store_stackPtr_returns i p s :
  wf_kernel s → (i < NUM_THREADS)%nat →
  store_stackPtr i p s =
  Returns tt (set_tcb (alter (fun t => Tcb p (nextStackPtr t)) i (tcb s)) s).
Proof.
  intros (Ht & _) Hi. unfold store_stackPtr.
  destruct (lookup_lt_is_Some_2 (tcb s) i) as [t ->]; [lia | reflexivity].
Qed.

Lemma store_nextStackPtr_returns i p s :
  wf_kernel s → (i < NUM_THREADS)%nat →
  store_nextStackPtr i p s =
  Returns tt (set_tcb (alter (fun t => Tcb (stackPtr t) p) i (tcb s)) s).
Proof.
  intros (Ht & _) Hi. unfold store_nextStackPtr.
  destruct (lookup_lt_is_Some_2 (tcb s) i) as [t ->]; [lia | reflexivity].
Qed.

Lemma wf_reset : wf_kernel reset_kernel.
Proof.
  unfold wf_kernel, reset_kernel. simpl. repeat split.
  repeat constructor.
Qed.
End Memory.

(** Well-formedness of a state built by the kernel's stores. *)
Ltac solve_wf :=
  repeat first
    [ assumption
    | apply wf_poke
    | apply wf_alter_tcb
    | match goal with
      | |- wf_kernel (set_PRIMASK _ ?s) => change (wf_kernel s)
      | |- wf_kernel (set_currStackPtr _ ?s) => change (wf_kernel s)
      | |- wf_kernel (set_MS_PRESCALER _ ?s) => change (wf_kernel s)
      | |- wf_kernel (set_SysTick _ ?s) => change (wf_kernel s)
      | |- wf_kernel (set_NVIC_priority _ ?s) => change (wf_kernel s)
      end ].

(** Array indices inside the declared bounds. *)
Ltac solve_index :=
  first [ assumption | unfold NUM_THREADS, MAX_STACK_SIZE in *; lia ].

(** One statement of a straight-line body. *)
Ltac step :=
  match goal with
  | |- context [bind (store_stack ?i ?k ?v) ?f ?s] =>
      rewrite (bind_returns (store_stack i k v) f s tt (poke i k v s))
        by (apply store_stack_returns; [solve_wf | solve_index | solve_index])
  | |- context [bind (store_stackPtr ?i ?p) ?f ?s] =>
      rewrite (bind_returns (store_stackPtr i p) f s tt
                 (set_tcb (alter (fun t => Tcb p (nextStackPtr t)) i (tcb s)) s))
        by (apply store_stackPtr_returns; [solve_wf | solve_index])
  | |- context [bind (store_nextStackPtr ?i ?p) ?f ?s] =>
      rewrite (bind_returns (store_nextStackPtr i p) f s tt
                 (set_tcb (alter (fun t => Tcb (stackPtr t) p) i (tcb s)) s))
        by (apply store_nextStackPtr_returns; [solve_wf | solve_index])
  | |- context [bind (modify ?g) ?f ?s] =>
      rewrite (bind_returns (modify g) f s tt (g s) eq_refl)
  | |- context [bind (get ?g) ?f ?s] =>
      rewrite (bind_returns (get g) f s (g s) s eq_refl)
  end.

(** Reading a slot of a state built by the kernel's stores. *)
Ltac read_stack :=
  repeat first
    [ rewrite stack_at_poke_ne by (unfold PC_slot, xPSR_slot, MAX_STACK_SIZE in *; lia)
    | rewrite stack_at_poke_eq
    | match goal with
      | |- context [stack_at (set_PRIMASK ?b ?s) ?i ?k] =>
          change (stack_at (set_PRIMASK b s) i k) with (stack_at s i k)
      | |- context [stack_at (set_currStackPtr ?b ?s) ?i ?k] =>
          change (stack_at (set_currStackPtr b s) i k) with (stack_at s i k)
      | |- context [stack_at (set_tcb ?b ?s) ?i ?k] =>
          change (stack_at (set_tcb b s) i k) with (stack_at s i k)
      end ].

Lemma to_uint8_small n : (n < 256)%nat → to_uint8 n = n.
Proof. intros Hn. unfold to_uint8. apply Nat.mod_small. exact Hn. Qed.

Section StackInit.
Variable s : kernel.
Hypothesis Hwf : wf_kernel s.

(** [KernelStackInit] returns, for a thread of the table; its stores are
    listed in the state it leaves. *)
Lemma KernelStackInit_returns i :
  (i < NUM_THREADS)%nat →
  ∃ s', KernelStackInit i s = Returns tt s' ∧
        wf_kernel s' ∧
        tcb s' = alter (fun t => Tcb (SlotAddr i (MAX_STACK_SIZE - 16))
                                      (nextStackPtr t)) i (tcb s) ∧
        currStackPtr s' = currStackPtr s ∧
        PRIMASK s' = PRIMASK s ∧
        peripherals s' = peripherals s ∧
        stack_at s' i xPSR_slot = Some (to_int32 (Z.shiftl 1 24)) ∧
        (∀ r, stack_at s' i (frame_slot r) = Some SENTINEL) ∧
        (∀ i' k, i' ≠ i ∨ (k < MAX_STACK_SIZE - 16)%nat ∨ k = PC_slot →
                 stack_at s' i' k = stack_at s i' k).
Proof.
  intros Hi. eexists. split.
  { unfold KernelStackInit. cbv zeta.
    rewrite (to_uint8_small i) by solve_index.
    repeat step.
    apply store_stack_returns; [solve_wf | solve_index | solve_index]. }
  split; [solve_wf|]. do 4 (split; [reflexivity|]).
  assert (Hsome : ∀ k, (k < MAX_STACK_SIZE)%nat → is_Some (stack_at s i k))
    by (intros k Hk; apply stack_at_is_Some; assumption).
  split; [|split].
  - unfold xPSR_slot. read_stack.
    destruct (Hsome (MAX_STACK_SIZE - 1)%nat) as [x ->];
      [unfold MAX_STACK_SIZE; lia | reflexivity].
  - intros r. destruct r; unfold frame_slot; read_stack;
      match goal with
      | |- context [stack_at s i ?k] =>
          destruct (Hsome k) as [x ->];
            [unfold MAX_STACK_SIZE; lia | reflexivity]
      end.
  - intros i' k Hk. unfold PC_slot in Hk.
    read_stack. reflexivity.
Qed.
End StackInit.

Section CreateThreads.
Variables task0 task1 task2 : task_ptr.
Variable s : kernel.
Hypothesis Hwf : wf_kernel s.

(** [KernelCreateThreads] returns [1] and leaves the table, the current
    pointer and the three frames as listed. *)
Lemma KernelCreateThreads_returns :
  ∃ s', KernelCreateThreads task0 task1 task2 s = Returns 1 s' ∧
        wf_kernel s' ∧
        tcb s' = created_tcb ∧
        currStackPtr s' = TcbAddr 0 ∧
        PRIMASK s' = false ∧
        peripherals s' = peripherals s ∧
        (∀ i, (i < NUM_THREADS)%nat →
           stack_at s' i xPSR_slot = Some (to_int32 (Z.shiftl 1 24)) ∧
           stack_at s' i PC_slot = Some (to_int32 (entry_of task0 task1 task2 i)) ∧
           ∀ r, stack_at s' i (frame_slot r) = Some SENTINEL) ∧
        (∀ i k, (k < MAX_STACK_SIZE - 16)%nat →
           stack_at s' i k = stack_at s i k).
Proof.
  unfold KernelCreateThreads, __disable_irq, __enable_irq.
  do 4 step.
  match goal with |- context [bind _ _ ?s0] => set (sa := s0) end.
  assert (Hwfa : wf_kernel sa) by (subst sa; solve_wf).
  destruct (KernelStackInit_returns sa Hwfa 0)
    as (s1 & E1 & Hwf1 & T1 & C1 & P1 & D1 & X1 & G1 & F1); [solve_index|].
  rewrite (bind_returns _ _ _ _ _ E1). step.
  match goal with |- context [bind _ _ ?s0] => set (sb := s0) end.
  assert (Hwfb : wf_kernel sb) by (subst sb; solve_wf).
  destruct (KernelStackInit_returns sb Hwfb 1)
    as (s2 & E2 & Hwf2 & T2 & C2 & P2 & D2 & X2 & G2 & F2); [solve_index|].
  rewrite (bind_returns _ _ _ _ _ E2). step.
  match goal with |- context [bind _ _ ?s0] => set (sc := s0) end.
  assert (Hwfc : wf_kernel sc) by (subst sc; solve_wf).
  destruct (KernelStackInit_returns sc Hwfc 2)
    as (s3 & E3 & Hwf3 & T3 & C3 & P3 & D3 & X3 & G3 & F3); [solve_index|].
  rewrite (bind_returns _ _ _ _ _ E3). do 3 step.
  eexists. split; [reflexivity|].
  split; [solve_wf|].
  split.
  { change (tcb s3 = created_tcb). rewrite T3.
    change (tcb sc) with (tcb s2). rewrite T2.
    change (tcb sb) with (tcb s1). rewrite T1.
    subst sa. simpl.
    destruct Hwf as (Hlen & _).
    destruct (tcb s) as [|a [|b [|c [|d t]]]]; try discriminate Hlen.
    reflexivity. }
  split; [reflexivity|]. split; [reflexivity|].
  split.
  { change (peripherals s3 = peripherals s). rewrite D3.
    change (peripherals sc) with (peripherals s2). rewrite D2.
    change (peripherals sb) with (peripherals s1). rewrite D1.
    reflexivity. }
  assert (Hsome : ∀ i k, (i < NUM_THREADS)%nat → (k < MAX_STACK_SIZE)%nat →
                         is_Some (stack_at s i k))
    by (intros; apply stack_at_is_Some; assumption).
  assert (Hsa : ∀ i k, stack_at sa i k = stack_at s i k) by reflexivity.
  split.
  - intros i Hi.
    destruct i as [|[|[|i]]]; [| | |unfold NUM_THREADS in Hi; lia].
    + split; [|split; [|intros r]].
      * read_stack. rewrite F3 by (left; lia). subst sc. read_stack.
        rewrite F2 by (left; lia). subst sb. read_stack. exact X1.
      * read_stack. rewrite F3 by (left; lia). subst sc. read_stack.
        rewrite F2 by (left; lia). subst sb. read_stack.
        rewrite F1 by (right; right; reflexivity). rewrite Hsa.
        destruct (Hsome 0%nat PC_slot) as [x ->];
          [solve_index | unfold PC_slot; solve_index | reflexivity].
      * read_stack. rewrite F3 by (left; lia). subst sc. read_stack.
        rewrite F2 by (left; lia). subst sb.
        rewrite stack_at_poke_ne
          by (right; destruct r; unfold frame_slot, MAX_STACK_SIZE; lia).
        apply G1.
    + split; [|split; [|intros r]].
      * read_stack. rewrite F3 by (left; lia). subst sc. read_stack. exact X2.
      * read_stack. rewrite F3 by (left; lia). subst sc. read_stack.
        rewrite F2 by (right; right; reflexivity). subst sb. read_stack.
        rewrite F1 by (left; lia). rewrite Hsa.
        destruct (Hsome 1%nat PC_slot) as [x ->];
          [solve_index | unfold PC_slot; solve_index | reflexivity].
      * read_stack. rewrite F3 by (left; lia). subst sc.
        rewrite stack_at_poke_ne
          by (right; destruct r; unfold frame_slot, MAX_STACK_SIZE; lia).
        apply G2.
    + split; [|split; [|intros r]].
      * read_stack. exact X3.
      * read_stack. rewrite F3 by (right; right; reflexivity).
        subst sc. read_stack. rewrite F2 by (left; lia). subst sb. read_stack.
        rewrite F1 by (left; lia). rewrite Hsa.
        destruct (Hsome 2%nat PC_slot) as [x ->];
          [solve_index | unfold PC_slot; solve_index | reflexivity].
      * change (stack_at (poke 2 (MAX_STACK_SIZE - 2) (to_int32 task2) s3) 2
                         (frame_slot r) = Some SENTINEL).
        rewrite stack_at_poke_ne
          by (right; destruct r; unfold frame_slot, MAX_STACK_SIZE; lia).
        apply G3.
  - intros i k Hk. read_stack.
    rewrite F3 by (right; left; exact Hk). subst sc. read_stack.
    rewrite F2 by (right; left; exact Hk). subst sb. read_stack.
    rewrite F1 by (right; left; exact Hk). apply Hsa.
Qed.
End CreateThreads.

(** ** The initial frames *)

Lemma to_uint32_to_int32 z : to_uint32 (to_int32 z) = to_uint32 z.
Proof.
  unfold to_uint32, to_int32.
  rewrite <- Zminus_mod_idemp_l, Z.mod_mod by lia.
  rewrite Zminus_mod_idemp_l. f_equal. lia.
Qed.

(** The state [reset_kernel] has the declared shape; by computation. *)
Ltac wf_by_computation :=
  unfold wf_kernel; simpl; repeat split; repeat constructor.

(** C2: after [KernelCreateThreads] has initialised thread [i]'s stack of
    capacity C = 100 words, the stack pointer saved in [tcb[i]] is the address
    of slot C-16 of that stack, slot C-2 holds the thread's entry-point address
    (as the 32 bits of an [int32_t]), and slot C-1, the saved status register,
    has bit 24, the Thumb bit, set. *)
Theorem initial_frame_layout task0 task1 task2 s i :
  wf_kernel s → (i < NUM_THREADS)%nat →
  ∃ s' t pc psr,
    KernelCreateThreads task0 task1 task2 s = Returns 1 s' ∧
    MAX_STACK_SIZE = 100%nat ∧
    tcb s' !! i = Some t ∧
    stackPtr t = SlotAddr i (MAX_STACK_SIZE - 16) ∧
    stack_at s' i (MAX_STACK_SIZE - 2) = Some pc ∧
    pc = to_int32 (entry_of task0 task1 task2 i) ∧
    to_uint32 pc = to_uint32 (entry_of task0 task1 task2 i) ∧
    stack_at s' i (MAX_STACK_SIZE - 1) = Some psr ∧
    Z.testbit psr THUMB_BIT = true.
Proof.
  intros Hwf Hi.
  destruct (KernelCreateThreads_returns task0 task1 task2 s Hwf)
    as (s' & E & _ & T & _ & _ & _ & Hframe & _).
  destruct (Hframe i Hi) as (Hpsr & Hpc & _).
  assert (Ht : ∃ t, tcb s' !! i = Some t ∧
                    stackPtr t = SlotAddr i (MAX_STACK_SIZE - 16)).
  { rewrite T. unfold NUM_THREADS in Hi.
    destruct i as [|[|[|i]]]; [| | |lia]; eexists; split; reflexivity. }
  destruct Ht as (t & Ht & Hsp).
  exists s', t, (to_int32 (entry_of task0 task1 task2 i)),
         (to_int32 (Z.shiftl 1 24)).
  repeat split; try assumption. apply to_uint32_to_int32.
Qed.

Lemma initial_frame_layout_witness :
  wf_kernel reset_kernel ∧ (1 < NUM_THREADS)%nat ∧
  ∃ s' t pc psr,
    KernelCreateThreads 134218241 134218305 134218369 reset_kernel
      = Returns 1 s' ∧
    MAX_STACK_SIZE = 100%nat ∧
    tcb s' !! 1%nat = Some t ∧
    stackPtr t = SlotAddr 1 (MAX_STACK_SIZE - 16) ∧
    stack_at s' 1 (MAX_STACK_SIZE - 2) = Some pc ∧
    pc = to_int32 (entry_of 134218241 134218305 134218369 1) ∧
    to_uint32 pc = to_uint32 (entry_of 134218241 134218305 134218369 1) ∧
    stack_at s' 1 (MAX_STACK_SIZE - 1) = Some psr ∧
    Z.testbit psr THUMB_BIT = true.
Proof.
  split; [wf_by_computation|]. split; [unfold NUM_THREADS; lia|].
  apply (initial_frame_layout 134218241 134218305 134218369 reset_kernel 1).
  - wf_by_computation.
  - unfold NUM_THREADS; lia.
Defined.

(** C8: for every thread [i], stack initialisation writes one fixed value,
    [0xAAAAAAAA], which is not zero, into the slot of every general-purpose
    register of the thread's initial frame: R0-R3, R12 and LR in the part the
    hardware restores (the top eight slots, which also hold the program
    counter and the status register), R4-R11 in the part software restores.
    The frames are still so when [KernelCreateThreads] returns. *)
Theorem registers_hold_sentinel task0 task1 task2 s i :
  wf_kernel s → (i < NUM_THREADS)%nat →
  SENTINEL ≠ 0 ∧ to_uint32 SENTINEL = 0xAAAAAAAA ∧
  (∀ r, hardware_restored r = true ↔ (MAX_STACK_SIZE - 8 ≤ frame_slot r)%nat) ∧
  (∃ s', KernelStackInit i s = Returns tt s' ∧
         ∀ r, stack_at s' i (frame_slot r) = Some SENTINEL) ∧
  (∃ s', KernelCreateThreads task0 task1 task2 s = Returns 1 s' ∧
         ∀ r, stack_at s' i (frame_slot r) = Some SENTINEL).
Proof.
  intros Hwf Hi. split; [discriminate|]. split; [reflexivity|].
  split; [intros r; destruct r; simpl; split; (reflexivity || lia || discriminate)|].
  split.
  - destruct (KernelStackInit_returns s Hwf i Hi)
      as (s' & E & _ & _ & _ & _ & _ & _ & G & _).
    exists s'. split; assumption.
  - destruct (KernelCreateThreads_returns task0 task1 task2 s Hwf)
      as (s' & E & _ & _ & _ & _ & _ & Hframe & _).
    exists s'. split; [exact E|]. apply (Hframe i Hi).
Qed.

Lemma registers_hold_sentinel_witness :
  wf_kernel reset_kernel ∧ (2 < NUM_THREADS)%nat ∧
  SENTINEL ≠ 0 ∧ to_uint32 SENTINEL = 0xAAAAAAAA ∧
  (∀ r, hardware_restored r = true ↔ (MAX_STACK_SIZE - 8 ≤ frame_slot r)%nat) ∧
  (∃ s', KernelStackInit 2 reset_kernel = Returns tt s' ∧
         ∀ r, stack_at s' 2 (frame_slot r) = Some SENTINEL) ∧
  (∃ s', KernelCreateThreads 134218241 134218305 134218369 reset_kernel
           = Returns 1 s' ∧
         ∀ r, stack_at s' 2 (frame_slot r) = Some SENTINEL).
Proof.
  split; [wf_by_computation|]. split; [unfold NUM_THREADS; lia|].
  apply (registers_hold_sentinel 134218241 134218305 134218369 reset_kernel 2).
  - wf_by_computation.
  - unfold NUM_THREADS; lia.
Defined.

(** ** Thread creation *)

(** C9: when [KernelCreateThreads] has returned, [currStackPtr] is the
    address of the first block, [tcb[0]], whose saved stack pointer is thread
    0's initial frame: the thread a launch starts with is thread 0. *)
Theorem current_is_first_thread task0 task1 task2 s :
  wf_kernel s →
  ∃ r s' t, KernelCreateThreads task0 task1 task2 s = Returns r s' ∧
            currStackPtr s' = TcbAddr 0 ∧
            tcb s' !! 0%nat = Some t ∧
            stackPtr t = SlotAddr 0 (MAX_STACK_SIZE - 16).
Proof.
  intros Hwf.
  destruct (KernelCreateThreads_returns task0 task1 task2 s Hwf)
    as (s' & E & _ & T & C & _).
  exists 1, s'. rewrite T. eexists. repeat split; [exact E | exact C].
Qed.

Lemma current_is_first_thread_witness :
  wf_kernel reset_kernel ∧
  ∃ r s' t, KernelCreateThreads 134218241 134218305 134218369 reset_kernel
              = Returns r s' ∧
            currStackPtr s' = TcbAddr 0 ∧
            tcb s' !! 0%nat = Some t ∧
            stackPtr t = SlotAddr 0 (MAX_STACK_SIZE - 16).
Proof.
  split; [wf_by_computation|].
  apply (current_is_first_thread 134218241 134218305 134218369 reset_kernel).
  wf_by_computation.
Defined.

(** C10: [KernelCreateThreads] returns the constant [1] whatever task
    pointers it is given, null ones included; the value does not depend on the
    arguments, and it is not the [0] the header documents for success. *)
Theorem create_threads_returns_one task0 task1 task2 s :
  wf_kernel s →
  ∃ s', KernelCreateThreads task0 task1 task2 s = Returns 1 s' ∧ (1 ≠ 0)%Z.
Proof.
  intros Hwf.
  destruct (KernelCreateThreads_returns task0 task1 task2 s Hwf)
    as (s' & E & _).
  exists s'. split; [exact E | discriminate].
Qed.

Lemma create_threads_returns_one_witness :
  wf_kernel reset_kernel ∧
  ∃ s', KernelCreateThreads NULL NULL 134218369 reset_kernel = Returns 1 s' ∧
        (1 ≠ 0)%Z.
Proof.
  split; [wf_by_computation|].
  apply (create_threads_returns_one NULL NULL 134218369 reset_kernel).
  wf_by_computation.
Defined.

(** C4 fails on the code: [KernelCreateThreads] validates nothing.  Called
    with a null first entry point on the start-up state, it stores the null
    pointer in thread 0's program-counter slot, makes that thread the current
    one, and leaves the state the scheduler reads changed. *)
Lemma create_threads_null_entry_installed :
  (∃ s', KernelCreateThreads NULL 134218305 134218369 reset_kernel
           = Returns 1 s' ∧
         currStackPtr s' = TcbAddr 0 ∧
         stack_at s' 0 PC_slot = Some NULL) ∧
  ¬ (∃ r s', KernelCreateThreads NULL 134218305 134218369 reset_kernel
               = Returns r s' ∧
             r ≠ 0 ∧
             scheduler_view s' = scheduler_view reset_kernel).
Proof.
  split.
  - eexists. split; [vm_compute; reflexivity|].
    split; reflexivity.
  - intros (r & s' & E & _ & H).
    apply (f_equal (fun v => snd (fst v))) in H. simpl in H.
    vm_compute in E. injection E as _ <-. discriminate H.
Qed.

(** C4, as the code has it: [KernelCreateThreads] takes exactly three entry
    points, so the thread count is fixed by its signature, and it checks none
    of them: for any three pointers, null ones included, it runs to its end,
    links and initialises all three blocks, stores each pointer as given in
    its thread's program-counter slot ([0] for a null one), and makes
    [currStackPtr] refer to thread 0. *)
Theorem create_threads_checks_nothing task0 task1 task2 s :
  wf_kernel s →
  ∃ r s', KernelCreateThreads task0 task1 task2 s = Returns r s' ∧
        tcb s' = created_tcb ∧
        length (tcb s') = NUM_THREADS ∧
        currStackPtr s' = TcbAddr 0 ∧
        ∀ i, (i < NUM_THREADS)%nat →
          stack_at s' i PC_slot = Some (to_int32 (entry_of task0 task1 task2 i)) ∧
          (entry_of task0 task1 task2 i = NULL → stack_at s' i PC_slot = Some 0).
Proof.
  intros Hwf.
  destruct (KernelCreateThreads_returns task0 task1 task2 s Hwf)
    as (s' & E & _ & T & C & _ & _ & Hframe & _).
  exists 1, s'. split; [exact E|]. split; [exact T|].
  split; [rewrite T; reflexivity|]. split; [exact C|].
  intros i Hi. destruct (Hframe i Hi) as (_ & Hpc & _).
  split; [exact Hpc|]. intros Hnull. rewrite Hpc, Hnull. reflexivity.
Qed.

Lemma create_threads_checks_nothing_witness :
  wf_kernel reset_kernel ∧
  ∃ r s', KernelCreateThreads 134218241 NULL 134218369 reset_kernel
          = Returns r s' ∧
        tcb s' = created_tcb ∧
        length (tcb s') = NUM_THREADS ∧
        currStackPtr s' = TcbAddr 0 ∧
        ∀ i, (i < NUM_THREADS)%nat →
          stack_at s' i PC_slot
            = Some (to_int32 (entry_of 134218241 NULL 134218369 i)) ∧
          (entry_of 134218241 NULL 134218369 i = NULL →
           stack_at s' i PC_slot = Some 0).
Proof.
  split; [wf_by_computation|].
  apply (create_threads_checks_nothing 134218241 NULL 134218369 reset_kernel).
  wf_by_computation.
Defined.

(** ** Launch *)

(** [KernelLaunch] is straight-line code over the timer and one priority:
    it returns, and the state it leaves is known. *)
Lemma KernelLaunch_returns quanta s :
  KernelLaunch quanta s =
  Returns tt
    (set_SysTick (SysTickRegs 7 (to_uint32 (quanta * MS_PRESCALER s - 1)) 0)
       (set_NVIC_priority (<[SysTick_IRQn := 15]> (NVIC_priority s)) s)).
Proof. reflexivity. Qed.

(** C3: with the system clock at [SYS_CLOCK] = F Hz and a quantum of Q
    milliseconds, [KernelInit] followed by [KernelLaunch] leaves
    Q * (F / 1000) - 1 in the timer's reload register: as computed in the
    register's 32 bits for every Q, hence exactly that number whenever the
    tick count Q * (F / 1000) is from 1 to 2^32; for F = 16,000,000 and Q = 10
    it is 159,999, and so it is for the quantum [main] asks for. *)
Theorem reload_value Q s :
  ∃ s', (KernelInit ;; KernelLaunch Q) s = Returns tt s' ∧
        MS_PRESCALER s' = SYS_CLOCK / 1000 ∧
        LOAD (SysTick s') = to_uint32 (Q * (SYS_CLOCK / 1000) - 1) ∧
        (1 ≤ Q * (SYS_CLOCK / 1000) ≤ 2 ^ 32 →
         LOAD (SysTick s') = Q * (SYS_CLOCK / 1000) - 1) ∧
        (SYS_CLOCK = 16000000 → Q = 10 → LOAD (SysTick s') = 159999) ∧
        (Q = QUANTA → LOAD (SysTick s') = 159999).
Proof.
  eexists. split.
  { unfold KernelInit. step. apply KernelLaunch_returns. }
  split; [reflexivity|]. split; [reflexivity|]. split.
  - intros HQ. simpl.
    change (to_uint32 (SYS_CLOCK / 1000)) with (SYS_CLOCK / 1000).
    unfold to_uint32. apply Z.mod_small. lia.
  - split; [intros _ ->|intros ->]; reflexivity.
Qed.

Lemma reload_value_witness :
  1 ≤ 10 * (SYS_CLOCK / 1000) ≤ 2 ^ 32 ∧ SYS_CLOCK = 16000000 ∧
  ∃ s', (KernelInit ;; KernelLaunch 10) reset_kernel = Returns tt s' ∧
        LOAD (SysTick s') = 10 * (SYS_CLOCK / 1000) - 1 ∧
        LOAD (SysTick s') = 159999.
Proof.
  assert (H : 1 ≤ 10 * (SYS_CLOCK / 1000) ≤ 2 ^ 32)
    by (vm_compute; split; discriminate).
  split; [exact H|]. split; [reflexivity|].
  destruct (reload_value 10 reset_kernel)
    as (s' & E & _ & _ & Hexact & Hten & _).
  exists s'. split; [exact E|]. split; [exact (Hexact H)|].
  exact (Hten eq_refl eq_refl).
Defined.

(** C6 fails on the code: [KernelLaunch] puts the timer interrupt at the
    least urgent level and leaves the switch exception at its reset level, the
    most urgent one.  After [main] on the start-up state the tick does not
    outrank the switch, and the switch is not at the lowest level. *)
Lemma launch_priorities_inverted :
  ∃ s', main 134218241 134218305 134218369 reset_kernel = Returns tt s' ∧
        priority_of s' SysTick_IRQn = LOWEST_PRIORITY ∧
        priority_of s' PendSV_IRQn = 0 ∧
        ¬ higher_priority (priority_of s' SysTick_IRQn)
                          (priority_of s' PendSV_IRQn) ∧
        priority_of s' PendSV_IRQn ≠ LOWEST_PRIORITY.
Proof.
  eexists. split; [vm_compute; reflexivity|].
  split; [reflexivity|]. split; [reflexivity|].
  split; [|discriminate].
  unfold higher_priority. intros H. vm_compute in H. discriminate H.
Qed.

(** C6, as the code has it: [KernelLaunch] sets the priority of the timer
    tick (the SysTick interrupt) to level 15, the lowest, and sets no other
    priority: every other exception, the switch exception among them, keeps the
    level it had. *)
Theorem launch_sets_tick_priority_only quanta s :
  ∃ s', KernelLaunch quanta s = Returns tt s' ∧
        priority_of s' SysTick_IRQn = LOWEST_PRIORITY ∧
        (∀ irq, irq ≠ SysTick_IRQn → priority_of s' irq = priority_of s irq) ∧
        priority_of s' PendSV_IRQn = priority_of s PendSV_IRQn.
Proof.
  eexists. split; [apply KernelLaunch_returns|].
  unfold priority_of. simpl. split; [|split].
  - rewrite lookup_insert_eq. reflexivity.
  - intros irq Hirq. rewrite lookup_insert_ne by congruence. reflexivity.
  - rewrite lookup_insert_ne by discriminate. reflexivity.
Qed.

(** C7, on the code: [KernelLaunch] returns to its caller.  After
    [KernelInit] and [KernelCreateThreads] on the start-up state, the call
    with the quantum of [main] comes back with the table, the current pointer and
    the stacks exactly as creation left them: no thread has been started. *)
Theorem launch_returns_to_caller :
  ∃ s1 s2,
    (KernelInit ;; KernelCreateThreads 134218241 134218305 134218369)
      reset_kernel = Returns 1 s1 ∧
    KernelLaunch QUANTA s1 = Returns tt s2 ∧
    scheduler_view s2 = scheduler_view s1 ∧
    main 134218241 134218305 134218369 reset_kernel = Returns tt s2.
Proof.
  eexists. eexists. split; [vm_compute; reflexivity|].
  split; [apply KernelLaunch_returns|].
  split; [reflexivity|]. vm_compute. reflexivity.
Qed.

(** ** Round robin over a ring of blocks *)

Lemma links_alter_stackPtr p i (t : list tcb_t) :
  links (alter (fun b => Tcb p (nextStackPtr b)) i t) = links t.
Proof.
  unfold links. apply list_eq. intros j.
  rewrite !list_lookup_fmap.
  destruct (decide (i = j)) as [<-|Hne].
  - rewrite list_lookup_alter_eq. destruct (t !! i); reflexivity.
  - rewrite list_lookup_alter_ne by exact Hne. reflexivity.
Qed.

Lemma links_length (t t' : list tcb_t) :
  links t' = links t → length t' = length t.
Proof.
  intros H. apply (f_equal length) in H. unfold links in H.
  rewrite !length_fmap in H. exact H.
Qed.

Lemma links_hop (t t' : list tcb_t) p :
  links t' = links t → hop t' p = hop t p.
Proof.
  intros H. destruct p as [|i]; [reflexivity|]. simpl.
  assert (Hi : links t' !! i = links t !! i) by (rewrite H; reflexivity).
  unfold links in Hi. rewrite !list_lookup_fmap in Hi.
  destruct (t' !! i), (t !! i); simpl in Hi; congruence.
Qed.

Lemma links_ring (t t' : list tcb_t) :
  links t' = links t → ring_links t → ring_links t'.
Proof.
  intros H Hring i b' Hb'.
  rewrite (links_length _ _ H).
  assert (Hi : links t' !! i = links t !! i) by (rewrite H; reflexivity).
  unfold links in Hi. rewrite !list_lookup_fmap, Hb' in Hi.
  destruct (t !! i) as [b|] eqn:Hb; simpl in Hi; [|discriminate].
  injection Hi as ->. exact (Hring i b Hb).
Qed.

Lemma ring_hop (t : list tcb_t) i :
  ring_links t → (i < length t)%nat →
  hop t (TcbAddr i) = TcbAddr (S i mod length t).
Proof.
  intros Hring Hi. simpl.
  destruct (lookup_lt_is_Some_2 t i Hi) as [b Hb].
  rewrite Hb. exact (Hring i b Hb).
Qed.

Lemma window_is_permutation n k :
  cyclic_order n n ≡ₚ (fun j => TcbAddr (j mod n)) <$> seq k n.
Proof.
  unfold cyclic_order. induction k as [|k IH]; [reflexivity|].
  rewrite IH. destruct n as [|n]; [reflexivity|].
  rewrite (seq_S n (S k)), fmap_app, <- cons_seq, !fmap_cons.
  rewrite <- Permutation_cons_append.
  replace (S k + n)%nat with (k + 1 * S n)%nat by lia.
  rewrite Nat.Div0.mod_add. reflexivity.
Qed.

Lemma cyclic_order_blocks n : cyclic_order n n = TcbAddr <$> seq 0 n.
Proof.
  unfold cyclic_order. apply list_eq. intros i.
  rewrite !list_lookup_fmap.
  destruct (decide (i < n)%nat) as [Hi|Hi].
  - rewrite lookup_seq_lt by exact Hi. simpl.
    rewrite Nat.mod_small by exact Hi. reflexivity.
  - rewrite (lookup_seq_ge 0 n i) by lia. reflexivity.
Qed.

Section Ring.
Variable n : nat.
Hypothesis Hn : (1 ≤ n)%nat.

Lemma ContextSwitch_returns sp c s :
  at_block n c s →
  ∃ p s', ContextSwitch sp s = Returns p s' ∧
          at_block n (S c mod n) s' ∧
          links (tcb s') = links (tcb s) ∧
          TCB_STACK s' = TCB_STACK s ∧
          peripherals s' = peripherals s.
Proof.
  intros (Hlen & Hring & Hc & Hcur).
  destruct (lookup_lt_is_Some_2 (tcb s) c) as [b Hb]; [lia|].
  pose proof (Hring c b Hb) as Hnext. rewrite Hlen in Hnext.
  assert (Hj : (S c mod n < n)%nat) by (apply Nat.mod_upper_bound; lia).
  set (t1 := alter (fun b => Tcb sp (nextStackPtr b)) c (tcb s)).
  assert (Hl1 : links t1 = links (tcb s)) by apply links_alter_stackPtr.
  assert (Hb1 : t1 !! c = Some (Tcb sp (nextStackPtr b))).
  { unfold t1. rewrite list_lookup_alter_eq, Hb. reflexivity. }
  destruct (lookup_lt_is_Some_2 t1 (S c mod n)) as [b' Hb'].
  { rewrite (links_length _ _ Hl1). lia. }
  exists (stackPtr b').
  exists (set_currStackPtr (TcbAddr (S c mod n)) (set_tcb t1 s)).
  split.
  { unfold ContextSwitch. step. rewrite Hcur.
    unfold bind at 1. unfold store_stackPtr at 1. rewrite Hb. fold t1.
    unfold bind at 1. unfold load_tcb at 1. simpl. rewrite Hb1. simpl.
    rewrite Hnext. step.
    unfold bind, load_tcb. simpl. rewrite Hb'. reflexivity. }
  split.
  { unfold at_block. simpl. rewrite (links_length _ _ Hl1).
    repeat split; try assumption. exact (links_ring _ _ Hl1 Hring). }
  split; [exact Hl1|]. split; reflexivity.
Qed.

Lemma serve_returns r c s :
  at_block n c s →
  ∃ p s', serve r s = Returns p s' ∧
          at_block n (S c mod n) s' ∧
          links (tcb s') = links (tcb s) ∧
          TCB_STACK s' = TCB_STACK s ∧
          peripherals s' = peripherals s.
Proof.
  intros H. unfold serve.
  destruct (fst r); apply ContextSwitch_returns; exact H.
Qed.

End Ring.

Lemma iter_hop (t : list tcb_t) i k :
  ring_links t → (i < length t)%nat →
  Nat.iter k (hop t) (TcbAddr i) = TcbAddr ((i + k) mod length t).
Proof.
  intros Hring Hi. induction k as [|k IH].
  - simpl Nat.iter. rewrite Nat.add_0_r, Nat.mod_small by exact Hi. reflexivity.
  - change (Nat.iter (S k) (hop t) (TcbAddr i))
      with (hop t (Nat.iter k (hop t) (TcbAddr i))).
    rewrite IH, ring_hop by (try apply Nat.mod_upper_bound; try assumption; lia).
    f_equal. replace (S ((i + k) mod length t)) with ((i + k) mod length t + 1)%nat by lia.
    rewrite Nat.Div0.add_mod_idemp_l. f_equal. lia.
Qed.

(** A ring of blocks is a single cycle through all of them. *)
Lemma ring_single_cycle (t : list tcb_t) : ring_links t → single_cycle t.
Proof.
  intros Hring i Hi. split.
  - unfold visit, blocks.
    rewrite <- cyclic_order_blocks, (window_is_permutation (length t) i).
    replace (seq i (length t)) with (Nat.add i <$> seq 0 (length t))
      by (rewrite fmap_add_seq; f_equal; lia).
    rewrite <- list_fmap_compose.
    erewrite list_fmap_ext; [reflexivity|].
    intros _ k _. simpl. apply iter_hop; assumption.
  - rewrite iter_hop by assumption.
    replace (i + length t)%nat with (i + 1 * length t)%nat by lia.
    rewrite Nat.Div0.mod_add, Nat.mod_small by exact Hi. reflexivity.
Qed.

(** The table [KernelCreateThreads] builds is a ring. *)
Lemma created_tcb_ring : ring_links created_tcb.
Proof.
  intros i b Hb. unfold created_tcb in Hb.
  destruct i as [|[|[|i]]]; simpl in Hb; try discriminate Hb;
    injection Hb as <-; reflexivity.
Qed.

(** [main] returns, with the ring built and [currStackPtr] at block 0. *)
Lemma main_returns task0 task1 task2 s :
  wf_kernel s →
  ∃ s', main task0 task1 task2 s = Returns tt s' ∧
        wf_kernel s' ∧ tcb s' = created_tcb ∧
        at_block NUM_THREADS 0 s'.
Proof.
  intros Hwf. unfold main, KernelInit. step.
  match goal with |- context [bind _ _ ?s0] => set (sa := s0) end.
  assert (Hwfa : wf_kernel sa) by (subst sa; solve_wf).
  destruct (KernelCreateThreads_returns task0 task1 task2 sa Hwfa)
    as (s1 & E & Hwf1 & T & C & _).
  rewrite (bind_returns _ _ _ _ _ E), KernelLaunch_returns.
  eexists. split; [reflexivity|]. split; [solve_wf|].
  split; [exact T|]. unfold at_block. simpl. rewrite T.
  repeat split; [apply created_tcb_ring | unfold NUM_THREADS; lia | exact C].
Qed.

(** ** The current thread *)

(** No function of [kernel.c] moves [currStackPtr] off the first block or
    touches a saved stack pointer once the threads are created. *)
Lemma entry_points_keep_current calls :
  ∀ s, wf_kernel s → tcb s = created_tcb → currStackPtr s = TcbAddr 0 →
    ∃ s', exec_ops (call_of <$> calls) s = Returns tt s' ∧
          wf_kernel s' ∧ tcb s' = created_tcb ∧ currStackPtr s' = TcbAddr 0.
Proof.
  induction calls as [|e calls IH]; intros s Hwf T C.
  - exists s. split; [reflexivity|]. split; [exact Hwf|]. split; assumption.
  - assert (Hstep : ∃ s1, exec_op (call_of e) s = Returns tt s1 ∧
                          wf_kernel s1 ∧ tcb s1 = created_tcb ∧
                          currStackPtr s1 = TcbAddr 0).
    { destruct e as [|task0 task1 task2|quanta]; simpl.
      - eexists. split; [reflexivity|]. split; [solve_wf|]. split; assumption.
      - destruct (KernelCreateThreads_returns task0 task1 task2 s Hwf)
          as (s1 & E & Hwf1 & T1 & C1 & _).
        exists s1. rewrite (bind_returns _ _ _ _ _ E).
        split; [reflexivity|]. split; [exact Hwf1|]. split; assumption.
      - rewrite KernelLaunch_returns. eexists. split; [reflexivity|].
        split; [solve_wf|]. split; assumption. }
    destruct Hstep as (s1 & E1 & Hwf1 & T1 & C1).
    destruct (IH s1 Hwf1 T1 C1) as (s2 & E2 & Hs2).
    exists s2. split; [|exact Hs2].
    rewrite fmap_cons. simpl. rewrite (bind_returns _ _ _ _ _ E1). exact E2.
Qed.

(** C1, on the code: no thread ever enters the running state, and thread 1
    is never reached.  [main], on the start-up state, returns with
    [currStackPtr] at thread 0's block; and whatever functions of [kernel.c]
    are called afterwards, in any number and order, [currStackPtr] is still
    that block and every saved stack pointer is still the one creation wrote:
    no thread has been switched in or out. *)
Theorem current_thread_never_advances :
  ∃ s1, main 134218241 134218305 134218369 reset_kernel = Returns tt s1 ∧
        currStackPtr s1 = TcbAddr 0 ∧
        ∀ calls : list entry_point,
          ∃ s2, exec_ops (call_of <$> calls) s1 = Returns tt s2 ∧
                currStackPtr s2 = TcbAddr 0 ∧
                currStackPtr s2 ≠ TcbAddr 1 ∧
                tcb s2 = created_tcb.
Proof.
  destruct (main_returns 134218241 134218305 134218369 reset_kernel wf_reset)
    as (s1 & E & Hwf1 & T & _ & _ & _ & C).
  exists s1. split; [exact E|]. split; [exact C|].
  intros calls.
  destruct (entry_points_keep_current calls s1 Hwf1 T C)
    as (s2 & E2 & _ & T2 & C2).
  exists s2. split; [exact E2|]. split; [exact C2|].
  split; [rewrite C2; discriminate | exact T2].
Qed.

(** ** The successor links never change *)

Lemma exec_op_after_creation o s :
  after_creation s →
  ∃ s', exec_op o s = Returns tt s' ∧ after_creation s'.
Proof.
  intros (Hwf & Hl & c & Hat).
  destruct o as [|task0 task1 task2|quanta|r]; simpl.
  - eexists. split; [reflexivity|].
    split; [solve_wf|]. split; [exact Hl|]. exists c. exact Hat.
  - destruct (KernelCreateThreads_returns task0 task1 task2 s Hwf)
      as (s' & E & Hwf' & T & C & _).
    exists s'. rewrite (bind_returns _ _ _ _ _ E).
    split; [reflexivity|]. split; [exact Hwf'|].
    split; [rewrite T; reflexivity|]. exists 0%nat.
    unfold at_block. rewrite T.
    repeat split; [apply created_tcb_ring | unfold NUM_THREADS; lia | exact C].
  - rewrite KernelLaunch_returns. eexists. split; [reflexivity|].
    split; [solve_wf|]. split; [exact Hl|]. exists c. exact Hat.
  - destruct (serve_returns NUM_THREADS ltac:(unfold NUM_THREADS; lia) r c s Hat)
      as (p & s' & E & Hat' & Hl' & Hst & _).
    exists s'. rewrite (bind_returns _ _ _ _ _ E).
    split; [reflexivity|]. split; [|split].
    + destruct Hwf as (_ & Hlen & Hrows), Hat' as (Hlen' & _).
      unfold wf_kernel. rewrite Hst. auto.
    + rewrite Hl'. exact Hl.
    + eexists. exact Hat'.
Qed.

Lemma exec_ops_after_creation os :
  ∀ s, after_creation s →
    ∃ s', exec_ops os s = Returns tt s' ∧ after_creation s'.
Proof.
  induction os as [|o os IH]; intros s Hs.
  - exists s. split; [reflexivity | exact Hs].
  - destruct (exec_op_after_creation o s Hs) as (s1 & E1 & Hs1).
    destruct (IH s1 Hs1) as (s2 & E2 & Hs2).
    exists s2. simpl. rewrite (bind_returns _ _ _ _ _ E1).
    split; assumption.
Qed.

(** C5: once [KernelCreateThreads] has returned, the successor links make
    one cycle that passes through each created thread once; and whatever the
    kernel does afterwards (its three entry points in any order and number,
    and switches), every link stays as creation set it, so the cycle is there
    in every state that can be reached. *)
Theorem successor_links_fixed_cycle task0 task1 task2 s :
  wf_kernel s →
  ∃ s1, KernelCreateThreads task0 task1 task2 s = Returns 1 s1 ∧
        length (tcb s1) = NUM_THREADS ∧
        links (tcb s1) = [TcbAddr 1; TcbAddr 2; TcbAddr 0] ∧
        single_cycle (tcb s1) ∧
        ∀ os, ∃ s2, exec_ops os s1 = Returns tt s2 ∧
                    links (tcb s2) = links (tcb s1) ∧
                    single_cycle (tcb s2).
Proof.
  intros Hwf.
  destruct (KernelCreateThreads_returns task0 task1 task2 s Hwf)
    as (s1 & E & Hwf1 & T & C & _).
  exists s1. split; [exact E|]. rewrite T.
  split; [reflexivity|]. split; [reflexivity|].
  split; [apply ring_single_cycle, created_tcb_ring|].
  intros os.
  assert (Hs1 : after_creation s1).
  { split; [exact Hwf1|]. split; [rewrite T; reflexivity|].
    exists 0%nat. unfold at_block. rewrite T.
    repeat split; [apply created_tcb_ring | unfold NUM_THREADS; lia | exact C]. }
  destruct (exec_ops_after_creation os s1 Hs1) as (s2 & E2 & _ & Hl & _).
  exists s2. split; [exact E2|]. split; [exact Hl|].
  apply ring_single_cycle. exact (links_ring _ _ Hl created_tcb_ring).
Qed.

Lemma successor_links_fixed_cycle_witness :
  wf_kernel reset_kernel ∧
  ∃ s1, KernelCreateThreads 134218241 134218305 134218369 reset_kernel
          = Returns 1 s1 ∧
        length (tcb s1) = NUM_THREADS ∧
        links (tcb s1) = [TcbAddr 1; TcbAddr 2; TcbAddr 0] ∧
        single_cycle (tcb s1) ∧
        ∀ os, ∃ s2, exec_ops os s1 = Returns tt s2 ∧
                    links (tcb s2) = links (tcb s1) ∧
                    single_cycle (tcb s2).
Proof.
  split; [wf_by_computation|].
  apply (successor_links_fixed_cycle 134218241 134218305 134218369 reset_kernel).
  wf_by_computation.
Defined.

(** * Further properties of [kernel.c] *)

(** ** Equality of states *)

Lemma kernel_eq s s' :
  peripherals s = peripherals s' → tcb s = tcb s' →
  currStackPtr s = currStackPtr s' → TCB_STACK s = TCB_STACK s' →
  PRIMASK s = PRIMASK s' → s = s'.
Proof.
  destruct s, s'. unfold peripherals. simpl.
  intros [= -> -> ->] -> -> -> ->. reflexivity.
Qed.

Lemma stacks_eq s s' :
  wf_kernel s → wf_kernel s' →
  (∀ i, (i < NUM_THREADS)%nat → TCB_STACK s !! i = TCB_STACK s' !! i) →
  TCB_STACK s = TCB_STACK s'.
Proof.
  intros (_ & Hlen & _) (_ & Hlen' & _) Hrows. apply list_eq. intros i.
  destruct (decide (i < NUM_THREADS)%nat) as [Hi|Hi]; [exact (Hrows i Hi)|].
  rewrite !lookup_ge_None_2 by lia. reflexivity.
Qed.

Lemma wf_row s i :
  wf_kernel s → (i < NUM_THREADS)%nat →
  ∃ row, TCB_STACK s !! i = Some row ∧ length row = MAX_STACK_SIZE.
Proof.
  intros (_ & Hlen & Hrows) Hi.
  destruct (lookup_lt_is_Some_2 (TCB_STACK s) i) as [row Hrow]; [lia|].
  exists row. split; [exact Hrow|].
  rewrite Forall_lookup in Hrows. exact (Hrows _ _ Hrow).
Qed.

Lemma frame_slot_cover k :
  (MAX_STACK_SIZE - 16 ≤ k < MAX_STACK_SIZE - 2)%nat → ∃ r, frame_slot r = k.
Proof.
  unfold MAX_STACK_SIZE. intros Hk.
  assert (Hcases : (k = 84 ∨ k = 85 ∨ k = 86 ∨ k = 87 ∨ k = 88 ∨ k = 89 ∨
                    k = 90 ∨ k = 91 ∨ k = 92 ∨ k = 93 ∨ k = 94 ∨ k = 95 ∨
                    k = 96 ∨ k = 97)%nat) by lia.
  repeat (destruct Hcases as [->|Hcases]); try subst k.
  - exists R4; reflexivity.
  - exists R5; reflexivity.
  - exists R6; reflexivity.
  - exists R7; reflexivity.
  - exists R8; reflexivity.
  - exists R9; reflexivity.
  - exists R10; reflexivity.
  - exists R11; reflexivity.
  - exists R0; reflexivity.
  - exists R1; reflexivity.
  - exists R2; reflexivity.
  - exists R3; reflexivity.
  - exists R12; reflexivity.
  - exists LR; reflexivity.
Qed.

Lemma initial_frame_lookup task j :
  (j < 14)%nat → initial_frame task !! j = Some SENTINEL.
Proof.
  intros Hj. unfold initial_frame.
  do 14 (destruct j as [|j]; [reflexivity|]). lia.
Qed.

(** The whole of a thread's stack once [KernelCreateThreads] has returned:
    what was there below the frame, then the frame. *)
Lemma KernelCreateThreads_row task0 task1 task2 s i :
  wf_kernel s → (i < NUM_THREADS)%nat →
  ∃ s' row0,
    KernelCreateThreads task0 task1 task2 s = Returns 1 s' ∧
    wf_kernel s' ∧
    tcb s' = created_tcb ∧ currStackPtr s' = TcbAddr 0 ∧
    PRIMASK s' = false ∧ peripherals s' = peripherals s ∧
    TCB_STACK s !! i = Some row0 ∧
    TCB_STACK s' !! i =
      Some (take (MAX_STACK_SIZE - 16) row0 ++
            initial_frame (entry_of task0 task1 task2 i)).
Proof.
  intros Hwf Hi.
  destruct (KernelCreateThreads_returns task0 task1 task2 s Hwf)
    as (s' & E & Hwf' & T & C & P & D & Hframe & Hlow).
  destruct (wf_row s i Hwf Hi) as (row0 & Hrow0 & Hlen0).
  destruct (wf_row s' i Hwf' Hi) as (row & Hrow & Hlen).
  exists s', row0. do 6 (split; [assumption|]). split; [exact Hrow0|].
  rewrite Hrow. f_equal.
  destruct (Hframe i Hi) as (Hpsr & Hpc & Hregs).
  assert (Hat : ∀ k, row !! k = stack_at s' i k)
    by (intros k; unfold stack_at; rewrite Hrow; reflexivity).
  assert (Hat0 : ∀ k, row0 !! k = stack_at s i k)
    by (intros k; unfold stack_at; rewrite Hrow0; reflexivity).
  assert (Htake : length (take (MAX_STACK_SIZE - 16) row0) = (MAX_STACK_SIZE - 16)%nat)
    by (rewrite length_take; unfold MAX_STACK_SIZE in *; lia).
  apply list_eq. intros k.
  destruct (decide (k < MAX_STACK_SIZE - 16)%nat) as [Hk|Hk].
  { rewrite lookup_app_l by lia. rewrite lookup_take_lt by exact Hk.
    rewrite Hat, Hat0. apply Hlow. exact Hk. }
  rewrite lookup_app_r by lia. rewrite Htake.
  destruct (decide (k < MAX_STACK_SIZE - 2)%nat) as [Hk2|Hk2].
  { destruct (frame_slot_cover k) as [r Hr]; [lia|].
    rewrite Hat, <- Hr, Hregs, Hr.
    symmetry. apply initial_frame_lookup. unfold MAX_STACK_SIZE in *. lia. }
  destruct (decide (k = PC_slot)) as [->|Hk3].
  { rewrite Hat, Hpc. reflexivity. }
  destruct (decide (k = xPSR_slot)) as [->|Hk4].
  { rewrite Hat, Hpsr. reflexivity. }
  rewrite lookup_ge_None_2
    by (rewrite Hlen; unfold PC_slot, xPSR_slot, MAX_STACK_SIZE in *; lia).
  symmetry. apply lookup_ge_None_2. unfold initial_frame. simpl.
  unfold PC_slot, xPSR_slot, MAX_STACK_SIZE in *. lia.
Qed.

(** ** The stack image creation leaves *)

(** X1: when [KernelCreateThreads] has returned, the stack of thread [i] is,
    word for word, what it held before in its first C-16 words, followed by
    the sixteen-word frame: fourteen times [0xAAAAAAAA], the thread's entry
    point and [0x01000000].  The frame starts at the saved stack pointer and
    ends with the stack. *)
Theorem create_threads_stack_image task0 task1 task2 s i :
  wf_kernel s → (i < NUM_THREADS)%nat →
  ∃ s' row0 t,
    KernelCreateThreads task0 task1 task2 s = Returns 1 s' ∧
    TCB_STACK s !! i = Some row0 ∧
    TCB_STACK s' !! i =
      Some (take (MAX_STACK_SIZE - 16) row0 ++
            initial_frame (entry_of task0 task1 task2 i)) ∧
    tcb s' !! i = Some t ∧
    stackPtr t = SlotAddr i (length (take (MAX_STACK_SIZE - 16) row0)) ∧
    Nat.add (length (take (MAX_STACK_SIZE - 16) row0))
            (length (initial_frame (entry_of task0 task1 task2 i)))
      = MAX_STACK_SIZE.
Proof.
  intros Hwf Hi.
  destruct (KernelCreateThreads_row task0 task1 task2 s i Hwf Hi)
    as (s' & row0 & E & _ & T & _ & _ & _ & Hrow0 & Hrow).
  destruct (wf_row s i Hwf Hi) as (row0' & Hrow0' & Hlen0).
  assert (row0' = row0) as -> by congruence.
  assert (Htake : length (take (MAX_STACK_SIZE - 16) row0) = (MAX_STACK_SIZE - 16)%nat)
    by (rewrite length_take; unfold MAX_STACK_SIZE in *; lia).
  assert (Ht : ∃ t, tcb s' !! i = Some t ∧
                    stackPtr t = SlotAddr i (MAX_STACK_SIZE - 16)).
  { rewrite T. unfold NUM_THREADS in Hi.
    destruct i as [|[|[|i]]]; [| | |lia]; eexists; split; reflexivity. }
  destruct Ht as (t & Ht & Hsp).
  exists s', row0, t. rewrite Htake.
  repeat split; assumption.
Qed.

Lemma create_threads_stack_image_witness :
  wf_kernel reset_kernel ∧ (2 < NUM_THREADS)%nat ∧
  ∃ s' row0 t,
    KernelCreateThreads 134218241 134218305 134218369 reset_kernel
      = Returns 1 s' ∧
    TCB_STACK reset_kernel !! 2%nat = Some row0 ∧
    TCB_STACK s' !! 2%nat =
      Some (take (MAX_STACK_SIZE - 16) row0 ++
            initial_frame (entry_of 134218241 134218305 134218369 2)) ∧
    tcb s' !! 2%nat = Some t ∧
    stackPtr t = SlotAddr 2 (length (take (MAX_STACK_SIZE - 16) row0)) ∧
    Nat.add (length (take (MAX_STACK_SIZE - 16) row0))
            (length (initial_frame (entry_of 134218241 134218305 134218369 2)))
      = MAX_STACK_SIZE.
Proof.
  split; [wf_by_computation|]. split; [unfold NUM_THREADS; lia|].
  apply (create_threads_stack_image 134218241 134218305 134218369
           reset_kernel 2).
  - wf_by_computation.
  - unfold NUM_THREADS; lia.
Defined.

(** Two states creation can leave are equal when they agree outside the
    thread data and were created with the same entry points from states
    with the same stacks. *)
Lemma created_states_eq task0 task1 task2 sa sb sa' sb' ra rb :
  wf_kernel sa → wf_kernel sb →
  KernelCreateThreads task0 task1 task2 sa = Returns ra sa' →
  KernelCreateThreads task0 task1 task2 sb = Returns rb sb' →
  peripherals sa = peripherals sb →
  (∀ i, (i < NUM_THREADS)%nat →
     take (MAX_STACK_SIZE - 16) <$> TCB_STACK sa !! i
     = take (MAX_STACK_SIZE - 16) <$> TCB_STACK sb !! i) →
  sa' = sb'.
Proof.
  intros Hwfa Hwfb Ea Eb Hper Hlow.
  destruct (KernelCreateThreads_returns task0 task1 task2 sa Hwfa)
    as (xa & Ea' & Hwfa' & Ta & Ca & Pa & Da & _).
  destruct (KernelCreateThreads_returns task0 task1 task2 sb Hwfb)
    as (xb & Eb' & Hwfb' & Tb & Cb & Pb & Db & _).
  assert (xa = sa') as -> by congruence.
  assert (xb = sb') as -> by congruence.
  apply kernel_eq; try congruence.
  apply stacks_eq; try assumption. intros i Hi.
  destruct (KernelCreateThreads_row task0 task1 task2 sa i Hwfa Hi)
    as (ya & rowa & Ea'' & _ & _ & _ & _ & _ & Hrowa & Hrowa').
  destruct (KernelCreateThreads_row task0 task1 task2 sb i Hwfb Hi)
    as (yb & rowb & Eb'' & _ & _ & _ & _ & _ & Hrowb & Hrowb').
  assert (ya = sa') as -> by congruence.
  assert (yb = sb') as -> by congruence.
  rewrite Hrowa', Hrowb'. specialize (Hlow i Hi).
  rewrite Hrowa, Hrowb in Hlow.
  change (Some (take (MAX_STACK_SIZE - 16) rowa)
          = Some (take (MAX_STACK_SIZE - 16) rowb)) in Hlow.
  assert (Heq : take (MAX_STACK_SIZE - 16) rowa = take (MAX_STACK_SIZE - 16) rowb)
    by congruence.
  rewrite Heq. reflexivity.
Qed.

(** ** How the entry points compose *)

(** X2: creating threads a second time replaces the first creation
    entirely: [KernelCreateThreads] called twice, with any entry points,
    leaves the state a single call with the second entry points leaves. *)
Theorem create_threads_last_wins a0 a1 a2 b0 b1 b2 s :
  wf_kernel s →
  ∃ s', (KernelCreateThreads a0 a1 a2 ;; KernelCreateThreads b0 b1 b2) s
          = Returns 1 s' ∧
        KernelCreateThreads b0 b1 b2 s = Returns 1 s'.
Proof.
  intros Hwf.
  destruct (KernelCreateThreads_returns a0 a1 a2 s Hwf)
    as (s1 & E1 & Hwf1 & _ & _ & _ & D1 & _).
  destruct (KernelCreateThreads_returns b0 b1 b2 s1 Hwf1)
    as (s2 & E2 & _).
  destruct (KernelCreateThreads_returns b0 b1 b2 s Hwf)
    as (s2' & E2' & _).
  exists s2'. split; [|exact E2'].
  rewrite (bind_returns _ _ _ _ _ E1), E2. f_equal.
  apply (created_states_eq b0 b1 b2 s1 s s2 s2' 1 1); try assumption.
  intros i Hi.
  destruct (KernelCreateThreads_row a0 a1 a2 s i Hwf Hi)
    as (y & row0 & Ey & _ & _ & _ & _ & _ & Hrow0 & Hrow1).
  assert (y = s1) as -> by congruence.
  rewrite Hrow0, Hrow1. simpl. f_equal.
  apply take_app_length'.
  destruct (wf_row s i Hwf Hi) as (row0' & Hrow0' & Hlen0).
  assert (row0' = row0) as -> by congruence.
  rewrite length_take. unfold MAX_STACK_SIZE in *. lia.
Qed.

Lemma create_threads_last_wins_witness :
  wf_kernel reset_kernel ∧
  ∃ s', (KernelCreateThreads 134218241 134218305 134218369 ;;
         KernelCreateThreads 134218369 NULL 134218241) reset_kernel
          = Returns 1 s' ∧
        KernelCreateThreads 134218369 NULL 134218241 reset_kernel
          = Returns 1 s'.
Proof.
  split; [wf_by_computation|].
  apply (create_threads_last_wins 134218241 134218305 134218369
           134218369 NULL 134218241 reset_kernel).
  wf_by_computation.
Defined.

(** X3: [KernelInit] and [KernelCreateThreads] can be called in either
    order: both orders leave the same state. *)
Theorem init_and_create_commute task0 task1 task2 s :
  wf_kernel s →
  ∃ s', (KernelInit ;; KernelCreateThreads task0 task1 task2) s
          = Returns 1 s' ∧
        (KernelCreateThreads task0 task1 task2 ;; KernelInit) s
          = Returns tt s'.
Proof.
  intros Hwf. unfold KernelInit.
  set (v := to_uint32 (SYS_CLOCK / 1000)).
  assert (Hwfv : wf_kernel (set_MS_PRESCALER v s)) by solve_wf.
  destruct (KernelCreateThreads_returns task0 task1 task2 _ Hwfv)
    as (sa & Ea & Hwfa & Ta & Ca & Pa & Da & _).
  destruct (KernelCreateThreads_returns task0 task1 task2 s Hwf)
    as (sb & Eb & Hwfb & Tb & Cb & Pb & Db & _).
  exists sa. split.
  { step. exact Ea. }
  rewrite (bind_returns _ _ _ _ _ Eb). unfold modify. f_equal.
  symmetry. apply kernel_eq; try (simpl; congruence).
  - unfold peripherals in *. simpl in *. congruence.
  - apply stacks_eq; [exact Hwfa | solve_wf |]. intros i Hi.
    destruct (KernelCreateThreads_row task0 task1 task2 _ i Hwfv Hi)
      as (ya & rowa & Eya & _ & _ & _ & _ & _ & Hrowa & Hrowa').
    destruct (KernelCreateThreads_row task0 task1 task2 s i Hwf Hi)
      as (yb & rowb & Eyb & _ & _ & _ & _ & _ & Hrowb & Hrowb').
    assert (ya = sa) as -> by congruence.
    assert (yb = sb) as -> by congruence.
    change (TCB_STACK (set_MS_PRESCALER v sb)) with (TCB_STACK sb).
    change (TCB_STACK (set_MS_PRESCALER v s)) with (TCB_STACK s) in Hrowa.
    rewrite Hrowa', Hrowb'. congruence.
Qed.

Lemma init_and_create_commute_witness :
  wf_kernel reset_kernel ∧
  ∃ s', (KernelInit ;; KernelCreateThreads 134218241 134218305 134218369)
          reset_kernel = Returns 1 s' ∧
        (KernelCreateThreads 134218241 134218305 134218369 ;; KernelInit)
          reset_kernel = Returns tt s'.
Proof.
  split; [wf_by_computation|].
  apply (init_and_create_commute 134218241 134218305 134218369 reset_kernel).
  wf_by_computation.
Defined.

(** ** What creation and stack initialisation leave alone *)

(** X4: [KernelCreateThreads] returns with interrupts enabled whether or not
    they were enabled when it was called (it ends with [__enable_irq], it does
    not restore the mask it found), and it touches neither the prescaler nor
    the timer nor any priority. *)
Theorem create_threads_enables_interrupts task0 task1 task2 s :
  wf_kernel s →
  ∃ s', KernelCreateThreads task0 task1 task2 s = Returns 1 s' ∧
        PRIMASK s' = false ∧
        MS_PRESCALER s' = MS_PRESCALER s ∧
        SysTick s' = SysTick s ∧
        NVIC_priority s' = NVIC_priority s.
Proof.
  intros Hwf.
  destruct (KernelCreateThreads_returns task0 task1 task2 s Hwf)
    as (s' & E & _ & _ & _ & P & D & _).
  exists s'. unfold peripherals in D. injection D as D1 D2 D3.
  repeat split; assumption.
Qed.

Lemma create_threads_enables_interrupts_witness :
  wf_kernel (set_PRIMASK true reset_kernel) ∧
  PRIMASK (set_PRIMASK true reset_kernel) = true ∧
  ∃ s', KernelCreateThreads 134218241 134218305 134218369
          (set_PRIMASK true reset_kernel) = Returns 1 s' ∧
        PRIMASK s' = false ∧
        MS_PRESCALER s' = MS_PRESCALER (set_PRIMASK true reset_kernel) ∧
        SysTick s' = SysTick (set_PRIMASK true reset_kernel) ∧
        NVIC_priority s' = NVIC_priority (set_PRIMASK true reset_kernel).
Proof.
  split; [wf_by_computation|]. split; [reflexivity|].
  apply (create_threads_enables_interrupts 134218241 134218305 134218369
           (set_PRIMASK true reset_kernel)).
  wf_by_computation.
Defined.

(** X5: [KernelStackInit] for thread [i] writes to that thread only, and
    not to its program-counter slot: every successor link, every other block,
    [currStackPtr], the other threads' stacks, and in thread [i]'s stack the
    program-counter slot and all words below the frame keep their contents. *)
Theorem stack_init_touches_own_frame_only s i :
  wf_kernel s → (i < NUM_THREADS)%nat →
  ∃ s', KernelStackInit i s = Returns tt s' ∧
        links (tcb s') = links (tcb s) ∧
        (∀ j, j ≠ i → tcb s' !! j = tcb s !! j) ∧
        currStackPtr s' = currStackPtr s ∧
        stack_at s' i (MAX_STACK_SIZE - 2) = stack_at s i (MAX_STACK_SIZE - 2) ∧
        (∀ j k, j ≠ i → stack_at s' j k = stack_at s j k) ∧
        (∀ k, (k < MAX_STACK_SIZE - 16)%nat → stack_at s' i k = stack_at s i k).
Proof.
  intros Hwf Hi.
  destruct (KernelStackInit_returns s Hwf i Hi)
    as (s' & E & _ & T & C & _ & _ & _ & _ & F).
  exists s'. split; [exact E|]. rewrite T.
  split; [apply links_alter_stackPtr|].
  split; [intros j Hj; apply list_lookup_alter_ne; congruence|].
  split; [exact C|].
  split; [apply F; right; right; reflexivity|].
  split; [intros j k Hj; apply F; left; exact Hj|].
  intros k Hk. apply F. right. left. exact Hk.
Qed.

Lemma stack_init_touches_own_frame_only_witness :
  wf_kernel reset_kernel ∧ (1 < NUM_THREADS)%nat ∧
  ∃ s', KernelStackInit 1 reset_kernel = Returns tt s' ∧
        links (tcb s') = links (tcb reset_kernel) ∧
        (∀ j, j ≠ 1%nat → tcb s' !! j = tcb reset_kernel !! j) ∧
        currStackPtr s' = currStackPtr reset_kernel ∧
        stack_at s' 1 (MAX_STACK_SIZE - 2)
          = stack_at reset_kernel 1 (MAX_STACK_SIZE - 2) ∧
        (∀ j k, j ≠ 1%nat → stack_at s' j k = stack_at reset_kernel j k) ∧
        (∀ k, (k < MAX_STACK_SIZE - 16)%nat →
              stack_at s' 1 k = stack_at reset_kernel 1 k).
Proof.
  split; [wf_by_computation|]. split; [unfold NUM_THREADS; lia|].
  apply (stack_init_touches_own_frame_only reset_kernel 1).
  - wf_by_computation.
  - unfold NUM_THREADS; lia.
Defined.



(** ** The timer after launch *)

(** X7: whatever the timer registers held, [KernelLaunch] leaves the control
    register with exactly the enable, interrupt and clock-source bits set
    (bits 0, 1 and 2) and the current-value register at zero; it changes
    neither the thread data nor the interrupt mask nor the prescaler. *)
Theorem launch_timer_state quanta s :
  ∃ s', KernelLaunch quanta s = Returns tt s' ∧
        CTRL (SysTick s') = 7 ∧
        (∀ n, Z.testbit (CTRL (SysTick s')) n = true ↔ n = 0 ∨ n = 1 ∨ n = 2) ∧
        VAL (SysTick s') = 0 ∧
        scheduler_view s' = scheduler_view s ∧
        PRIMASK s' = PRIMASK s ∧
        MS_PRESCALER s' = MS_PRESCALER s.
Proof.
  eexists. split; [apply KernelLaunch_returns|]. simpl.
  split; [reflexivity|]. split; [|repeat split].
  intros n. change 7 with (Z.ones 3). split.
  - intros Hbit.
    destruct (Z_lt_le_dec n 0) as [Hneg|Hpos].
    { rewrite Z.testbit_neg_r in Hbit by exact Hneg. discriminate. }
    destruct (Z_lt_le_dec n 3) as [Hlt|Hge]; [lia|].
    rewrite Z.ones_spec_high in Hbit by lia. discriminate.
  - intros [-> | [-> | ->]]; reflexivity.
Qed.

(** X8: launching twice is launching once with the second quantum:
    [KernelLaunch] re-programs the timer from scratch. *)
Theorem launch_twice q1 q2 s :
  (KernelLaunch q1 ;; KernelLaunch q2) s = KernelLaunch q2 s ∧
  ∃ s', KernelLaunch q2 s = Returns tt s'.
Proof.
  split; [|eexists; apply KernelLaunch_returns].
  rewrite (bind_returns _ _ _ _ _ (KernelLaunch_returns q1 s)).
  rewrite !KernelLaunch_returns. f_equal.
  apply kernel_eq; try reflexivity.
  unfold peripherals. simpl. rewrite insert_insert_eq. reflexivity.
Qed.

(** X9: when the tick count [quanta * MS_PRESCALER] is zero, because the
    quantum is zero or because [KernelInit] has not run and the prescaler is
    still zero, the subtraction wraps and [KernelLaunch] programs the reload
    register with 2^32 - 1. *)
Theorem launch_reload_wraps quanta s :
  quanta = 0 ∨ MS_PRESCALER s = 0 →
  ∃ s', KernelLaunch quanta s = Returns tt s' ∧
        LOAD (SysTick s') = 2 ^ 32 - 1.
Proof.
  intros Hzero. eexists. split; [apply KernelLaunch_returns|]. simpl.
  replace (quanta * MS_PRESCALER s) with 0 by (destruct Hzero as [-> | ->]; lia).
  reflexivity.
Qed.

Lemma launch_reload_wraps_witness :
  (QUANTA = 0 ∨ MS_PRESCALER reset_kernel = 0) ∧
  ∃ s', KernelLaunch QUANTA reset_kernel = Returns tt s' ∧
        LOAD (SysTick s') = 2 ^ 32 - 1.
Proof.
  split; [right; reflexivity|].
  apply (launch_reload_wraps QUANTA reset_kernel). right. reflexivity.
Defined.

(** ** The program as a whole *)

(** X10: [main], from any state with the declared arrays, comes back with
    the timer armed for the 10 ms quantum (reload 159,999, control 7, current
    value 0, tick priority 15), the prescaler at 16,000, the three threads
    created with thread 0 current and interrupts enabled: creating the threads
    between [KernelInit] and [KernelLaunch] does not disturb the timing
    base. *)
Theorem main_final_state task0 task1 task2 s :
  wf_kernel s →
  ∃ s', main task0 task1 task2 s = Returns tt s' ∧
        SysTick s' = SysTickRegs 7 159999 0 ∧
        priority_of s' SysTick_IRQn = 15 ∧
        MS_PRESCALER s' = 16000 ∧
        tcb s' = created_tcb ∧
        currStackPtr s' = TcbAddr 0 ∧
        PRIMASK s' = false ∧
        ∀ i, (i < NUM_THREADS)%nat →
          stack_at s' i PC_slot = Some (to_int32 (entry_of task0 task1 task2 i)).
Proof.
  intros Hwf. unfold main, KernelInit. step.
  match goal with |- context [bind _ _ ?s0] => set (sa := s0) end.
  assert (Hwfa : wf_kernel sa) by (subst sa; solve_wf).
  destruct (KernelCreateThreads_returns task0 task1 task2 sa Hwfa)
    as (s1 & E & _ & T & C & P & D & Hframe & _).
  rewrite (bind_returns _ _ _ _ _ E), KernelLaunch_returns.
  unfold peripherals in D. injection D as D1 D2 D3.
  eexists. split; [reflexivity|]. simpl. rewrite D1. subst sa.
  split; [reflexivity|].
  split; [unfold priority_of; simpl; rewrite lookup_insert_eq; reflexivity|].
  split; [reflexivity|].
  do 3 (split; [assumption|]).
  intros i Hi. apply (Hframe i Hi).
Qed.

Lemma main_final_state_witness :
  wf_kernel reset_kernel ∧
  ∃ s', main 134218241 134218305 134218369 reset_kernel = Returns tt s' ∧
        SysTick s' = SysTickRegs 7 159999 0 ∧
        priority_of s' SysTick_IRQn = 15 ∧
        MS_PRESCALER s' = 16000 ∧
        tcb s' = created_tcb ∧
        currStackPtr s' = TcbAddr 0 ∧
        PRIMASK s' = false ∧
        ∀ i, (i < NUM_THREADS)%nat →
          stack_at s' i PC_slot
            = Some (to_int32 (entry_of 134218241 134218305 134218369 i)).
Proof.
  split; [wf_by_computation|].
  apply (main_final_state 134218241 134218305 134218369 reset_kernel).
  wf_by_computation.
Defined.

(** X11: [KernelLaunch] and [KernelCreateThreads] work on disjoint parts of
    the state, so arming the timer before creating the threads leaves the same
    state as doing it after, as [main] does. *)
Theorem launch_and_create_commute task0 task1 task2 quanta s :
  wf_kernel s →
  ∃ s', (KernelCreateThreads task0 task1 task2 ;; KernelLaunch quanta) s
          = Returns tt s' ∧
        (KernelLaunch quanta ;; KernelCreateThreads task0 task1 task2) s
          = Returns 1 s'.
Proof.
  intros Hwf.
  destruct (KernelCreateThreads_returns task0 task1 task2 s Hwf)
    as (sb & Eb & Hwfb & Tb & Cb & Pb & Db & _).
  rewrite (bind_returns _ _ _ _ _ Eb), KernelLaunch_returns.
  rewrite (bind_returns _ _ _ _ _ (KernelLaunch_returns quanta s)).
  match goal with |- context [KernelCreateThreads _ _ _ ?s0] => set (sl := s0) end.
  assert (Hwfl : wf_kernel sl) by (subst sl; solve_wf).
  destruct (KernelCreateThreads_returns task0 task1 task2 sl Hwfl)
    as (sa & Ea & Hwfa & Ta & Ca & Pa & Da & _).
  exists sa. split; [|exact Ea]. f_equal.
  unfold peripherals in Da, Db. injection Db as Db1 Db2 Db3.
  injection Da as Da1 Da2 Da3.
  apply kernel_eq; try (simpl; congruence).
  - unfold peripherals. simpl. rewrite Da1, Da2, Da3, Db1, Db3. reflexivity.
  - apply stacks_eq; [solve_wf | exact Hwfa |]. intros i Hi.
    destruct (KernelCreateThreads_row task0 task1 task2 sl i Hwfl Hi)
      as (ya & rowa & Eya & _ & _ & _ & _ & _ & Hrowa & Hrowa').
    destruct (KernelCreateThreads_row task0 task1 task2 s i Hwf Hi)
      as (yb & rowb & Eyb & _ & _ & _ & _ & _ & Hrowb & Hrowb').
    assert (ya = sa) as -> by congruence.
    assert (yb = sb) as -> by congruence.
    change (TCB_STACK sl) with (TCB_STACK s) in Hrowa.
    simpl. rewrite Hrowa', Hrowb'. congruence.
Qed.

Lemma launch_and_create_commute_witness :
  wf_kernel reset_kernel ∧
  ∃ s', (KernelCreateThreads 134218241 134218305 134218369 ;;
         KernelLaunch QUANTA) reset_kernel = Returns tt s' ∧
        (KernelLaunch QUANTA ;;
         KernelCreateThreads 134218241 134218305 134218369) reset_kernel
          = Returns 1 s'.
Proof.
  split; [wf_by_computation|].
  apply (launch_and_create_commute 134218241 134218305 134218369 QUANTA
           reset_kernel).
  wf_by_computation.
Defined.
